(** * Notice2Do: the calendar encoder [to_ics], the extractor [call_ai], the
    PDF text, the gate of the button and the labels of the check list
    (src/app.py), embedded in Rocq.

    A Python [str] is a sequence of Unicode code points; we keep it as a list
    of numbers, so that [ord] is the identity and [enumerate] is the list
    position.  A task is the [dict] that [json.loads] produced, kept as a
    finite map from keys to Python values.  Exceptions are explicit: every
    operation that can raise returns a [result]. *)

From Stdlib Require Import NArith ZArith Lia Bool Ascii String.
From Stdlib Require Import Decimal DecimalNat DecimalN.
From stdpp Require Import base option list list_numbers gmap strings.

Local Open Scope N_scope.

(* ===================================================================== *)
(** ** Python strings *)
(* ===================================================================== *)

Module Py.

(** A [str]: its code points, in order. *)
Definition str := list N.

(** *** Source literals

    The literals of app.py are written here as they are in the source file,
    UTF-8 encoded; [lit] decodes the bytes into code points the way the
    Python reader does. *)

Fixpoint bytes_of (s : string) : list N :=
  match s with
  | EmptyString => []
  | String a s' => N_of_ascii a :: bytes_of s'
  end.

Fixpoint utf8_decode (bs : list N) : str :=
  match bs with
  | [] => []
  | b :: r =>
    if b <? 0x80 then b :: utf8_decode r
    else if b <? 0xE0 then
      match r with
      | b1 :: r1 => ((b - 0xC0) * 64 + (b1 - 0x80)) :: utf8_decode r1
      | _ => []
      end
    else if b <? 0xF0 then
      match r with
      | b1 :: b2 :: r2 =>
        ((b - 0xE0) * 4096 + (b1 - 0x80) * 64 + (b2 - 0x80)) :: utf8_decode r2
      | _ => []
      end
    else
      match r with
      | b1 :: b2 :: b3 :: r3 =>
        ((b - 0xF0) * 262144 + (b1 - 0x80) * 4096 + (b2 - 0x80) * 64 + (b3 - 0x80))
          :: utf8_decode r3
      | _ => []
      end
  end.

Definition lit (s : string) : str := utf8_decode (bytes_of s).

(** *** The Unicode tables the methods consult *)

(** [Py_UNICODE_ISSPACE]: what [str.strip], [str.isspace] and the regular
    expression class [\s] call white space. *)
Definition isspace (c : N) : bool :=
  ((0x09 <=? c) && (c <=? 0x0D)) || ((0x1C <=? c) && (c <=? 0x20))
  || (c =? 0x85) || (c =? 0xA0) || (c =? 0x1680)
  || ((0x2000 <=? c) && (c <=? 0x200A))
  || (c =? 0x2028) || (c =? 0x2029) || (c =? 0x202F) || (c =? 0x205F)
  || (c =? 0x3000).

(** The code points of the digit zero of every decimal script (general
    category Nd, Unicode 14): each starts a run of ten digits. *)
Definition decimal_zeros : list N :=
  [ 0x30; 0x660; 0x6F0; 0x7C0; 0x966; 0x9E6; 0xA66; 0xAE6; 0xB66; 0xBE6;
    0xC66; 0xCE6; 0xD66; 0xDE6; 0xE50; 0xED0; 0xF20; 0x1040; 0x1090; 0x17E0;
    0x1810; 0x1946; 0x19D0; 0x1A80; 0x1A90; 0x1B50; 0x1BB0; 0x1C40; 0x1C50;
    0xA620; 0xA8D0; 0xA900; 0xA9D0; 0xA9F0; 0xAA50; 0xABF0; 0xFF10; 0x104A0;
    0x10D30; 0x11066; 0x110F0; 0x11136; 0x111D0; 0x112F0; 0x11450; 0x114D0;
    0x11650; 0x116C0; 0x11730; 0x118E0; 0x11950; 0x11C50; 0x11D50; 0x11DA0;
    0x16A60; 0x16AC0; 0x16B50;
    0x1D7CE; 0x1D7D8; 0x1D7E2; 0x1D7EC; 0x1D7F6;
    0x1E140; 0x1E2F0; 0x1E950; 0x1FBF0 ].

(** [Py_UNICODE_TODECIMAL]: the value of a decimal digit, [None] for any
    other code point.  [str.isdecimal], the class [\d] and [int] use it. *)
Definition to_decimal (c : N) : option N :=
  match List.find (fun z => (z <=? c) && (c <? z + 10)) decimal_zeros with
  | Some z => Some (c - z)
  | None => None
  end.

Definition isdecimal (c : N) : bool :=
  match to_decimal c with Some _ => true | None => false end.

(** *** Methods of [str] *)

(** [s.strip()] *)
Fixpoint lstrip (s : str) : str :=
  match s with
  | c :: s' => if isspace c then lstrip s' else s
  | [] => []
  end.
Definition rstrip (s : str) : str := rev (lstrip (rev s)).
Definition strip (s : str) : str := rstrip (lstrip s).

(** [s.lower()], one code point at a time.  ASCII letters are exact; so are
    the only two code points outside ASCII whose lower-case form contains an
    ASCII character (U+0130 and the Kelvin sign U+212A).  Every other code
    point outside ASCII lowers to text outside ASCII and is left as it is:
    app.py only compares the result with ASCII words. *)
Definition tolower (c : N) : str :=
  if (65 <=? c) && (c <=? 90) then [c + 32]
  else if c =? 0x130 then [105; 0x307]
  else if c =? 0x212A then [107]
  else [c].

Definition lower (s : str) : str := flat_map tolower s.

(** [s.replace(old, new)] for one-character [old] and [new]. *)
Definition replace (old new : N) (s : str) : str :=
  map (fun c => if c =? old then new else c) s.

(** [s.startswith(p)] *)
Fixpoint startswith (s p : str) : bool :=
  match p, s with
  | [], _ => true
  | a :: p', b :: s' => (a =? b) && startswith s' p'
  | _ :: _, [] => false
  end.

(** [sep.join(lines)] *)
Fixpoint join (sep : str) (lines : list str) : str :=
  match lines with
  | [] => []
  | [l] => l
  | l :: rest => l ++ sep ++ join sep rest
  end.

(** [s.split("\n")]: the lines of a document. *)
Fixpoint split_lf (s : str) : list str :=
  match s with
  | [] => [[]]
  | c :: s' =>
    if c =? 10 then [] :: split_lf s'
    else match split_lf s' with
         | l :: ls => (c :: l) :: ls
         | [] => [[c]]
         end
  end.

(** *** Numbers as text *)

Fixpoint digits_of_uint (d : Decimal.uint) : str :=
  match d with
  | Nil => []
  | D0 d' => 48 :: digits_of_uint d'
  | D1 d' => 49 :: digits_of_uint d'
  | D2 d' => 50 :: digits_of_uint d'
  | D3 d' => 51 :: digits_of_uint d'
  | D4 d' => 52 :: digits_of_uint d'
  | D5 d' => 53 :: digits_of_uint d'
  | D6 d' => 54 :: digits_of_uint d'
  | D7 d' => 55 :: digits_of_uint d'
  | D8 d' => 56 :: digits_of_uint d'
  | D9 d' => 57 :: digits_of_uint d'
  end.

(** [str(i)] for a list index, as an f-string field [{i}] prints it. *)
Definition str_of_nat (n : nat) : str := digits_of_uint (Nat.to_uint n).

(** [str(n)] for a code point or a calendar field. *)
Definition str_of_N (n : N) : str := digits_of_uint (N.to_uint n).

(** [s.zfill(w)] *)
Definition zfill (w : nat) (s : str) : str :=
  repeat 48 (w - length s)%nat ++ s.

(** White space that [int] skips around the digits: the C [isspace] below
    code point 127, the Unicode table above. *)
Definition int_space (c : N) : bool :=
  if c <? 127 then ((0x09 <=? c) && (c <=? 0x0D)) || (c =? 0x20)
  else isspace c.

End Py.

(* ===================================================================== *)
(** ** Python values and exceptions *)
(* ===================================================================== *)

(** The values a decoded JSON object can hold under a key, as far as the
    encoder tells them apart: [None], a [str], or anything else (a number
    stands for it). *)
Inductive pyval :=
| PyNone
| PyStr (s : Py.str)
| PyInt (z : Z).

(** The exceptions that the modelled code and its library calls raise; the
    last two are Streamlit's (no secrets file) and the OpenAI client's (the
    backend answered with a server error). *)
Inductive exn :=
| ValueError
| TypeError
| AttributeError
| RuntimeError (msg : Py.str)
| StreamlitSecretNotFoundError
| InternalServerError.

Inductive result (A : Type) :=
| Ok (a : A)
| Raise (e : exn).
Arguments Ok {A} a.
Arguments Raise {A} e.

(** Sequencing: an exception ends the computation ([x ← r; k]). *)
#[global] Instance result_bind : MBind result := fun A B f r =>
  match r with
  | Ok a => f a
  | Raise e => Raise e
  end.

(** [d.get(key)]: [None] when the key is absent. *)
Definition dict_get (d : gmap string pyval) (key : string) : pyval :=
  default PyNone (d !! key).

(** Truth value of an object, as [or] and [if] test it. *)
Definition truthy (v : pyval) : bool :=
  match v with
  | PyNone => false
  | PyStr s => negb (bool_decide (s = []))
  | PyInt z => negb (z =? 0)%Z
  end.

(** [a or b] *)
Definition py_or (a b : pyval) : pyval := if truthy a then a else b.

(* ===================================================================== *)
(** ** The regular expressions of [_strptime] *)
(* ===================================================================== *)

Module Re.

(** The fragment of [re] that the directives of a time format compile to:
    the empty pattern, literals, character classes, concatenation, ordered
    alternatives, a greedy class repetition ([\s+]) and named groups. *)
Inductive regex :=
| Eps
| Lit (c : N)
| Cls (p : N -> bool)
| Cat (r1 r2 : regex)
| Alt (r1 r2 : regex)
| ClsPlus (p : N -> bool)
| Grp (name : string) (r : regex).

(** A class [[lo-hi]] *)
Definition range (lo hi : N) : N -> bool := fun c => (lo <=? c) && (c <=? hi).

(** The named groups that took part in the match, latest first. *)
Definition groups := list (string * Py.str).

(** Greedy [p+]: take as many characters as possible, give one back at a
    time while the rest of the pattern fails. *)
Fixpoint greedy {A} (p : N -> bool) (s : Py.str) (k : Py.str -> option A) : option A :=
  match s with
  | c :: s' =>
    if p c then
      match greedy p s' k with
      | Some x => Some x
      | None => k s'
      end
    else None
  | [] => None
  end.

(** The backtracking matcher: [k] is the rest of the pattern, run on the
    text that is left; alternatives are tried left to right and the first
    that lets the rest succeed wins. *)
Fixpoint sre_match {A} (r : regex) (s : Py.str) (g : groups)
    (k : Py.str -> groups -> option A) : option A :=
  match r with
  | Eps => k s g
  | Lit c =>
    match s with
    | c' :: s' => if c' =? c then k s' g else None
    | [] => None
    end
  | Cls p =>
    match s with
    | c' :: s' => if p c' then k s' g else None
    | [] => None
    end
  | Cat r1 r2 => sre_match r1 s g (fun s' g' => sre_match r2 s' g' k)
  | Alt r1 r2 =>
    match sre_match r1 s g k with
    | Some x => Some x
    | None => sre_match r2 s g k
    end
  | ClsPlus p => greedy p s (fun s' => k s' g)
  | Grp name r1 =>
    sre_match r1 s g
      (fun s' g' => k s' ((name, take (length s - length s') s) :: g'))
  end.

(** [pattern.match(s)]: anchored at the start; the result is the end
    position of the match and its [groupdict()]. *)
Definition re_match (r : regex) (s : Py.str) : option (nat * groups) :=
  sre_match r s [] (fun s' g => Some ((length s - length s')%nat, g)).

(** [m.groupdict().get(name)] *)
Fixpoint group (g : groups) (name : string) : option Py.str :=
  match g with
  | [] => None
  | (n, w) :: g' => if String.eqb n name then Some w else group g' name
  end.

(** What it means for a word to be matched by a pattern, and which groups
    it fills: the declarative reading of the pattern. *)
Inductive matches : regex -> Py.str -> groups -> groups -> Prop :=
| m_eps g : matches Eps [] g g
| m_lit c g : matches (Lit c) [c] g g
| m_cls p c g : p c = true -> matches (Cls p) [c] g g
| m_cat r1 r2 w1 w2 g g1 g2 :
    matches r1 w1 g g1 -> matches r2 w2 g1 g2 ->
    matches (Cat r1 r2) (w1 ++ w2) g g2
| m_alt_l r1 r2 w g g' : matches r1 w g g' -> matches (Alt r1 r2) w g g'
| m_alt_r r1 r2 w g g' : matches r2 w g g' -> matches (Alt r1 r2) w g g'
| m_plus p w g :
    w <> [] -> Forall (fun c => p c = true) w -> matches (ClsPlus p) w g g
| m_grp name r w g g' :
    matches r w g g' -> matches (Grp name r) w g ((name, w) :: g').

End Re.

(* ===================================================================== *)
(** ** [datetime] *)
(* ===================================================================== *)

Module Datetime.
Import Re.

Record datetime := mkdt {
  year : N; month : N; day : N;
  hour : N; minute : N; second : N; microsecond : N
}.

Definition is_leap (y : N) : bool :=
  (y mod 4 =? 0) && (negb (y mod 100 =? 0) || (y mod 400 =? 0)).

Definition days_in_month (y m : N) : N :=
  if m =? 2 then (if is_leap y then 29 else 28)
  else if (m =? 4) || (m =? 6) || (m =? 9) || (m =? 11) then 30
  else 31.

(** [datetime(year, month, day, hour, minute, second, microsecond)]: the
    constructor checks every field and raises [ValueError] outside its
    range. *)
Definition datetime_new (y mo d h mi s us : N) : result datetime :=
  if (1 <=? y) && (y <=? 9999) && (1 <=? mo) && (mo <=? 12)
     && (1 <=? d) && (d <=? days_in_month y mo)
     && (h <=? 23) && (mi <=? 59) && (s <=? 59) && (us <=? 999999)
  then Ok (mkdt y mo d h mi s us)
  else Raise ValueError.

(** *** Formatting *)

Definition directive_text (dt : datetime) (d : ascii) : option Py.str :=
  match d with
  | "Y"%char => Some (Py.str_of_N (year dt))
  | "m"%char => Some (Py.zfill 2 (Py.str_of_N (month dt)))
  | "d"%char => Some (Py.zfill 2 (Py.str_of_N (day dt)))
  | "H"%char => Some (Py.zfill 2 (Py.str_of_N (hour dt)))
  | "M"%char => Some (Py.zfill 2 (Py.str_of_N (minute dt)))
  | "S"%char => Some (Py.zfill 2 (Py.str_of_N (second dt)))
  | _ => None
  end.

(** [dt.strftime(format)] for the numeric directives app.py uses; any
    other character is copied.  CPython hands the format to the C library:
    with glibc [%Y] is the year in decimal without padding (999 for the year
    999), the other directives are two digits. *)
Fixpoint strftime (dt : datetime) (format : string) : Py.str :=
  match format with
  | EmptyString => []
  | String "%"%char (String d rest) =>
    match directive_text dt d with
    | Some t => t ++ strftime dt rest
    | None => 37 :: N_of_ascii d :: strftime dt rest
    end
  | String c rest => N_of_ascii c :: strftime dt rest
  end.

(** *** Parsing *)

Definition digit := Cls Py.isdecimal.

(** [TimeRE]: the pattern of each directive.

    [%Y] is [(?P<Y>\d\d\d\d)], [%m] is [(?P<m>1[0-2]|0[1-9]|[1-9])],
    [%d] is [(?P<d>3[0-1]|[1-2]\d|0[1-9]|[1-9]| [1-9])],
    [%H] is [(?P<H>2[0-3]|[0-1]\d|\d)], [%M] is [(?P<M>[0-5]\d|\d)]. *)
Definition re_Y : regex := Grp "Y" (Cat digit (Cat digit (Cat digit digit))).

Definition re_m : regex :=
  Grp "m" (Alt (Cat (Lit 49) (Cls (range 48 50)))
          (Alt (Cat (Lit 48) (Cls (range 49 57)))
               (Cls (range 49 57)))).

Definition re_d : regex :=
  Grp "d" (Alt (Cat (Lit 51) (Cls (range 48 49)))
          (Alt (Cat (Cls (range 49 50)) digit)
          (Alt (Cat (Lit 48) (Cls (range 49 57)))
          (Alt (Cls (range 49 57))
               (Cat (Lit 32) (Cls (range 49 57))))))).

Definition re_H : regex :=
  Grp "H" (Alt (Cat (Lit 50) (Cls (range 48 51)))
          (Alt (Cat (Cls (range 48 49)) digit)
               digit)).

Definition re_M : regex :=
  Grp "M" (Alt (Cat (Cls (range 48 53)) digit) digit).

Definition directive_regex (d : ascii) : option regex :=
  match d with
  | "Y"%char => Some re_Y
  | "m"%char => Some re_m
  | "d"%char => Some re_d
  | "H"%char => Some re_H
  | "M"%char => Some re_M
  | "%"%char => Some (Lit 37)
  | _ => None
  end.

(** [TimeRE.pattern(format)], piece by piece: a directive becomes its
    pattern, a run of white space becomes one [\s+], any other character
    stands for itself; a "%" that no directive follows is an error.
    [in_space] tells that the character before was white space. *)
Fixpoint pieces (in_space : bool) (format : string) : option (list regex) :=
  match format with
  | EmptyString => Some []
  | String "%"%char EmptyString => None
  | String "%"%char (String d rest) =>
    match directive_regex d, pieces false rest with
    | Some r, Some rs => Some (r :: rs)
    | _, _ => None
    end
  | String c rest =>
    if Py.isspace (N_of_ascii c) then
      if in_space then pieces true rest
      else option_map (cons (ClsPlus Py.isspace)) (pieces true rest)
    else option_map (cons (Lit (N_of_ascii c))) (pieces false rest)
  end.

Fixpoint sequence (rs : list regex) : regex :=
  match rs with
  | [] => Eps
  | [r] => r
  | r :: rs' => Cat r (sequence rs')
  end.

(** The pattern of a format, [None] for a format that [TimeRE] refuses.
    (It is compiled with IGNORECASE; the literals of a numeric format have
    no case.) *)
Definition pattern (format : string) : option regex :=
  option_map sequence (pieces false format).

(** [int(text)] for the text of a group: digits of any decimal script,
    white space around them skipped. *)
Fixpoint int_digits (acc : N) (s : Py.str) : option N :=
  match s with
  | [] => Some acc
  | c :: s' =>
    match Py.to_decimal c with
    | Some v => int_digits (10 * acc + v) s'
    | None => None
    end
  end.

Fixpoint int_lstrip (s : Py.str) : Py.str :=
  match s with
  | c :: s' => if Py.int_space c then int_lstrip s' else s
  | [] => []
  end.

Definition py_int (s : Py.str) : result N :=
  match rev (int_lstrip (rev (int_lstrip s))) with
  | [] => Raise ValueError
  | ds => match int_digits 0 ds with
          | Some n => Ok n
          | None => Raise ValueError
          end
  end.

(** The value of a directive: [int] of its group when the format has it,
    the default otherwise. *)
Definition field (found_dict : groups) (name : string) (dflt : N) : result N :=
  match group found_dict name with
  | Some w => py_int w
  | None => Ok dflt
  end.

(** [_strptime(data_string, format)] followed by the construction of the
    [datetime]: the whole of [data_string] has to match. *)
Definition _strptime (data_string : Py.str) (format : string) : result datetime :=
  match pattern format with
  | None => Raise ValueError
  | Some format_regex =>
    match re_match format_regex data_string with
    | None => Raise ValueError
    | Some (end_, found_dict) =>
      if negb (length data_string =? end_)%nat then Raise ValueError
      else
        y ← field found_dict "Y" 1900;
        mo ← field found_dict "m" 1;
        d ← field found_dict "d" 1;
        h ← field found_dict "H" 0;
        mi ← field found_dict "M" 0;
        datetime_new y mo d h mi 0 0
    end
  end.

(** [datetime.strptime(due, format)]: [TypeError] unless [due] is a [str]. *)
Definition strptime (due : pyval) (format : string) : result datetime :=
  match due with
  | PyStr s => _strptime s format
  | _ => Raise TypeError
  end.

End Datetime.

(* ===================================================================== *)
(** ** app.py *)
(* ===================================================================== *)

Import Datetime.

Definition LF : Py.str := [10].

(** [enumerate(xs)] *)
Fixpoint enumerate_from {A} (i : nat) (xs : list A) : list (nat * A) :=
  match xs with
  | [] => []
  | x :: xs' => (i, x) :: enumerate_from (S i) xs'
  end.

Definition enumerate {A} (xs : list A) : list (nat * A) := enumerate_from 0 xs.

(** *** [to_ics] (lines 93-136) *)

Definition default_tzid : Py.str := Py.lit "Asia/Seoul".

Definition calendar_header : list Py.str :=
  [ Py.lit "BEGIN:VCALENDAR";
    Py.lit "VERSION:2.0";
    Py.lit "PRODID:-//Notice2Do//KR//EN";
    Py.lit "CALSCALE:GREGORIAN" ].

(** Line 123: [(t.get("task") or "할 일").replace("\n", " ").strip()].  The
    methods exist on a [str] only. *)
Definition summary_of (t : gmap string pyval) : result Py.str :=
  match py_or (dict_get t "task") (PyStr (Py.lit "할 일")) with
  | PyStr s => Ok (Py.strip (Py.replace 10 32 s))
  | _ => Raise AttributeError
  end.

(** Lines 120-133: the seven lines of one event. *)
Definition vevent (tzid now_utc : Py.str) (uid dtstart dtend summary : Py.str)
    : list Py.str :=
  [ Py.lit "BEGIN:VEVENT";
    Py.lit "UID:" ++ uid;
    Py.lit "DTSTAMP:" ++ now_utc;
    Py.lit "DTSTART;TZID=" ++ tzid ++ Py.lit ":" ++ dtstart;
    Py.lit "DTEND;TZID=" ++ tzid ++ Py.lit ":" ++ dtend;
    Py.lit "SUMMARY:" ++ summary;
    Py.lit "END:VEVENT" ].

(** Lines 115-133: parse [due]; [ValueError] is caught and the task is
    passed over, any other exception escapes. *)
Definition emit (tzid now_utc : Py.str) (i : nat) (t : gmap string pyval)
    (due : pyval) (lines : list Py.str) : result (list Py.str) :=
  match strptime due "%Y-%m-%d %H:%M" with
  | Raise ValueError => Ok lines
  | Raise e => Raise e
  | Ok dt =>
    let dtstart := strftime dt "%Y%m%dT%H%M%S" in
    let dtend := strftime dt "%Y%m%dT%H%M%S" in
    let uid := Py.lit "notice2do-" ++ Py.str_of_nat i ++ Py.lit "-"
               ++ dtstart ++ Py.lit "@local" in
    summary ← summary_of t;
    Ok (lines ++ vevent tzid now_utc uid dtstart dtend summary)
  end.

(** Lines 103-133: one turn of the loop; [Ok lines] with [lines] unchanged
    is [continue]. *)
Definition to_ics_body (tzid now_utc : Py.str) (i : nat)
    (t : gmap string pyval) (lines : list Py.str) : result (list Py.str) :=
  match dict_get t "due_local" with
  | PyNone => Ok lines
  | PyStr due =>
    let due := Py.strip due in
    if bool_decide (Py.lower due ∈ [Py.lit "null"; Py.lit "none"; Py.lit ""])
    then Ok lines
    else emit tzid now_utc i t (PyStr (Py.replace 84 32 due)) lines
  | due => emit tzid now_utc i t due lines
  end.

(** Line 102: [for i, t in enumerate(tasks)]. *)
Fixpoint to_ics_loop (tzid now_utc : Py.str) (i : nat)
    (tasks : list (gmap string pyval)) (lines : list Py.str)
    : result (list Py.str) :=
  match tasks with
  | [] => Ok lines
  | t :: rest =>
    lines' ← to_ics_body tzid now_utc i t lines;
    to_ics_loop tzid now_utc (S i) rest lines'
  end.

Section Clock.
(** The clock is part of the world the function runs in:
    [datetime.now(timezone.utc)] reads it. *)
Context {World : Type}.
Variable datetime_now : World -> datetime * World.

Definition to_ics (tasks : list (gmap string pyval)) (tzid : Py.str)
    (w : World) : result Py.str * World :=
  let '(now, w') := datetime_now w in
  let now_utc := strftime now "%Y%m%dT%H%M%SZ" in
  (lines ← to_ics_loop tzid now_utc 0 tasks calendar_header;
   Ok (Py.join LF (lines ++ [Py.lit "END:VCALENDAR"])),
   w').
End Clock.

(** *** [call_ai] (lines 51-91) *)

(** One request to the generation backend. *)
Record request := mkreq {
  req_api_key : Py.str;
  req_model : Py.str;
  req_system : Py.str;
  req_user : Py.str
}.

Definition system_prompt : Py.str :=
  Py.lit "너는 '공지/과제 정리 비서'다. "
  ++ Py.lit "원문에서 확인 가능한 정보만 사용하고, 날짜/시간이 없으면 추정하지 말고 null로 둬라. "
  ++ Py.lit "요약은 짧고 명확하게, 할 일은 실행 가능한 형태로 써라.".

(** [repr] of a list of pairs of integers, as an f-string field prints
    [bad[:10]]. *)
Definition repr_pair (p : nat * N) : Py.str :=
  Py.lit "(" ++ Py.str_of_nat p.1 ++ Py.lit ", " ++ Py.str_of_N p.2 ++ Py.lit ")".

Definition repr_pairs (l : list (nat * N)) : Py.str :=
  Py.lit "[" ++ Py.join (Py.lit ", ") (map repr_pair l) ++ Py.lit "]".

Definition msg_missing : Py.str :=
  Py.lit "OPENAI_API_KEY가 없습니다. .streamlit/secrets.toml에 넣어주세요.".

Definition msg_non_ascii (shown : list (nat * N)) : Py.str :=
  Py.lit "OPENAI_API_KEY에 비ASCII 문자가 섞여 있습니다. 위치/코드: "
  ++ repr_pairs shown ++ Py.lit " "
  ++ Py.lit "(예: 65279는 BOM, 8203은 제로폭 공백)".

Definition msg_prefix : Py.str :=
  Py.lit "OPENAI_API_KEY 형식이 이상합니다. sk-로 시작하는 실제 키를 넣어주세요.".

(** Line 58: the positions and code points outside ASCII. *)
Definition bad_chars (api_key : Py.str) : list (nat * N) :=
  List.filter (fun p => 127 <? p.2) (enumerate api_key).

Section Backend.
(** Streamlit and the OpenAI client are outside the repository.
    [st.secrets.get("OPENAI_API_KEY")] raises when there is no secrets file,
    and gives the value under the key, or [None], when there is one: [secret]
    is that outcome.  [client.responses.create] does what it wants with the
    network (it may try more than once) and answers with the text of the
    output or with an exception: it is a function on the state of the
    network.  [json.loads] decodes the text. *)
Context {Net Json : Type}.
Variable responses_create : request -> Net -> result Py.str * Net.
Variable json_loads : Py.str -> result Json.

Definition call_ai (secret : result pyval) (raw_text : Py.str) (net : Net)
    : result Json * Net :=
  match secret with
  | Raise e => (Raise e, net)
  | Ok v =>
    match py_or v (PyStr []) with
    | PyStr s =>
      let api_key := Py.strip s in
      if bool_decide (api_key = []) then
        (Raise (RuntimeError msg_missing), net)
      else
        let bad := bad_chars api_key in
        if negb (bool_decide (bad = [])) then
          (Raise (RuntimeError (msg_non_ascii (take 10 bad))), net)
        else if negb (Py.startswith api_key (Py.lit "sk-")) then
          (Raise (RuntimeError msg_prefix), net)
        else
          let req := mkreq api_key (Py.lit "gpt-4o-mini") system_prompt
                       (Py.lit "[원문]" ++ LF ++ raw_text ++ LF) in
          let '(resp, net') := responses_create req net in
          (output_text ← resp; json_loads output_text, net')
    | _ => (Raise AttributeError, net)
    end
  end.
End Backend.

(** *** [extract_text_from_pdf] (lines 17-22) and the choice of the input
    (lines 139-149) *)

(** Where the text comes from: the text area, or the file uploader, which
    holds a file or nothing. *)
Inductive input_mode (Upload : Type) :=
| Paste (text : Py.str)
| Upload_pdf (uploaded : option Upload).
Arguments Paste {Upload} text.
Arguments Upload_pdf {Upload} uploaded.

Section Pdf.
(** PyMuPDF is outside the repository: it opens the bytes of an uploaded
    file into the texts of its pages ([page.get_text("text")], in order), or
    raises.  [HAS_PDF] tells whether its import succeeded (lines 7-11). *)
Context {Upload : Type}.
Variable HAS_PDF : bool.
Variable page_texts : Upload -> result (list Py.str).

Definition extract_text_from_pdf (uploaded_file : Upload) : result Py.str :=
  if negb HAS_PDF then Ok []
  else pages ← page_texts uploaded_file; Ok (Py.strip (Py.join LF pages)).

(** Lines 141-149: [raw_text]. *)
Definition read_input (mode : input_mode Upload) : result Py.str :=
  match mode with
  | Paste text => Ok text
  | Upload_pdf (Some uploaded) =>
    if HAS_PDF then extract_text_from_pdf uploaded else Ok []
  | Upload_pdf None => Ok []
  end.
End Pdf.

(** *** The button (lines 151-157) *)

(** Line 152: [not raw_text or len(raw_text.strip()) < 30]. *)
Definition too_short (raw_text : Py.str) : bool :=
  bool_decide (raw_text = []) || (length (Py.strip raw_text) <? 30)%nat.

Section Script.
Context {Upload Net Json : Type}.
Variable HAS_PDF : bool.
Variable page_texts : Upload -> result (list Py.str).
Variable responses_create : request -> Net -> result Py.str * Net.
Variable json_loads : Py.str -> result Json.

(** A click on the button, up to the record that [call_ai] returns:
    [Ok None] is the warning followed by [st.stop()]. *)
Definition on_click (mode : input_mode Upload) (secret : result pyval)
    (net : Net) : result (option Json) * Net :=
  match read_input HAS_PDF page_texts mode with
  | Raise e => (Raise e, net)
  | Ok raw_text =>
    if too_short raw_text then (Ok None, net)
    else
      let '(data, net') :=
        call_ai responses_create json_loads secret raw_text net in
      (match data with Ok d => Ok (Some d) | Raise e => Raise e end, net')
  end.
End Script.

(** *** The label of a task in the check list (lines 167-169) *)

(** [t[key]]: a missing key raises [KeyError]. *)
Inductive keyed (A : Type) :=
| Got (a : A)
| KeyError (key : string).
Arguments Got {A} a.
Arguments KeyError {A} key.

#[global] Instance keyed_bind : MBind keyed := fun A B f r =>
  match r with
  | Got a => f a
  | KeyError key => KeyError key
  end.

Definition getitem (t : gmap string pyval) (key : string) : keyed pyval :=
  match t !! key with
  | Some v => Got v
  | None => KeyError key
  end.

(** [str(z)] for an integer. *)
Definition str_of_Z (z : Z) : Py.str :=
  if (z <? 0)%Z then 45 :: Py.str_of_N (Z.to_N (- z))
  else Py.str_of_N (Z.to_N z).

(** A value in an f-string field, [{v}]. *)
Definition format (v : pyval) : Py.str :=
  match v with
  | PyNone => Py.lit "None"
  | PyStr s => s
  | PyInt z => str_of_Z z
  end.

Definition task_label (t : gmap string pyval) : keyed Py.str :=
  priority ← getitem t "priority";
  task ← getitem t "task";
  let label := Py.lit "[" ++ format priority ++ Py.lit "] " ++ format task in
  due ← getitem t "due_local";
  if truthy due then
    due' ← getitem t "due_local";
    Got (label ++ Py.lit " (마감: " ++ format due' ++ Py.lit ")")
  else Got label.

(** *** [SCHEMA] (lines 34-44): an item of "tasks" *)

Definition schema_task (t : gmap string pyval) : Prop :=
  dom t = ({["task"; "due_local"; "priority"; "source_quote"]} : gset string)
  /\ (exists s, t !! "task" = Some (PyStr s))
  /\ (t !! "due_local" = Some PyNone \/ exists s, t !! "due_local" = Some (PyStr s))
  /\ (exists p, t !! "priority" = Some (PyStr p)
                /\ p ∈ [Py.lit "high"; Py.lit "mid"; Py.lit "low"])
  /\ (exists q, t !! "source_quote" = Some (PyStr q)).

(* ===================================================================== *)
(** ** The vocabulary of the statements *)
(* ===================================================================== *)

(** Lines 110 and 113 together: the text that [strptime] is given. *)
Definition normalized (due : Py.str) : Py.str :=
  Py.replace 84 32 (Py.strip due).

(** The datetime of a task, when its [due_local] is a [str] that parses. *)
Definition parsed_due (t : gmap string pyval) : option datetime :=
  match dict_get t "due_local" with
  | PyStr due =>
    match _strptime (normalized due) "%Y-%m-%d %H:%M" with
    | Ok dt => Some dt
    | Raise _ => None
    end
  | _ => None
  end.

(** Lines 120-122: the start stamp of an event and its UID. *)
Definition stamp (dt : datetime) : Py.str := strftime dt "%Y%m%dT%H%M%S".

Definition uid_of (i : nat) (dt : datetime) : Py.str :=
  Py.lit "notice2do-" ++ Py.str_of_nat i ++ Py.lit "-" ++ stamp dt
  ++ Py.lit "@local".

(** The summary of a task whose description is a [str] (or missing). *)
Definition summary_text (t : gmap string pyval) : Py.str :=
  match dict_get t "task" with
  | PyStr (c :: s) => Py.strip (Py.replace 10 32 (c :: s))
  | _ => Py.lit "할 일"
  end.

(** The lines that a task contributes to the calendar: one event when its
    [due_local] parses, nothing otherwise. *)
Definition event_block (tzid now_utc : Py.str) (i : nat)
    (t : gmap string pyval) : list Py.str :=
  match parsed_due t with
  | Some dt =>
    vevent tzid now_utc (uid_of i dt) (stamp dt) (stamp dt) (summary_text t)
  | None => []
  end.

(** The tasks that have a datetime, each with its position in the input. *)
Definition dated (tasks : list (gmap string pyval)) : list (nat * datetime) :=
  omap (fun p => pair p.1 <$> parsed_due p.2) (enumerate tasks).

(** How many lines of a list are a given line. *)
Definition count_line (x : Py.str) (ls : list Py.str) : nat :=
  length (List.filter (fun l => bool_decide (l = x)) ls).

(** A value that is [None] or a [str]. *)
Definition optional_str (v : pyval) : Prop :=
  v = PyNone \/ exists s, v = PyStr s.

(** A task as the data model has it: a [str] (or nothing) under "task" and
    under "due_local". *)
Definition TaskItem (t : gmap string pyval) : Prop :=
  optional_str (dict_get t "task") /\ optional_str (dict_get t "due_local").

(** A text without line feed. *)
Definition one_line (s : Py.str) : Prop := Forall (fun c => c <> 10) s.

(** The lines of a document that carry a UID. *)
Definition uid_lines (doc : Py.str) : list Py.str :=
  List.filter (fun l => Py.startswith l (Py.lit "UID:")) (Py.split_lf doc).

(** Equal up to the case of ASCII letters, for a lower-case word. *)
Definition caseless_eq (s word : Py.str) : Prop :=
  Forall2 (fun c k => c = k \/ c + 32 = k) s word.

(** *** The pattern, read strictly

    Sixteen characters [YYYY-MM-DD HH:MM], ASCII digits of exactly the
    stated widths, every value in range and the date on the calendar. *)

Definition ascii_digit (c : N) : bool := (48 <=? c) && (c <=? 57).

Definition two_digits (a b : N) : N := 10 * (a - 48) + (b - 48).

Definition strict_pattern (s : Py.str) : bool :=
  match s with
  | [y1; y2; y3; y4; p1; m1; m2; p2; d1; d2; sp; h1; h2; co; n1; n2] =>
    let y := 100 * two_digits y1 y2 + two_digits y3 y4 in
    let mo := two_digits m1 m2 in
    let d := two_digits d1 d2 in
    forallb ascii_digit [y1; y2; y3; y4; m1; m2; d1; d2; h1; h2; n1; n2]
    && (p1 =? 45) && (p2 =? 45) && (sp =? 32) && (co =? 58)
    && (1 <=? y) && (1 <=? mo) && (mo <=? 12)
    && (1 <=? d) && (d <=? days_in_month y mo)
    && (two_digits h1 h2 <=? 23) && (two_digits n1 n2 <=? 59)
  | _ => false
  end.

(** *** The pattern, as [strptime] reads it

    One or two digits are enough for month, day, hour and minute; a day of
    one digit may have a space before it; date and time are separated by
    any run of white space; a digit that is not at a place where the
    pattern asks for a given range may come from any decimal script. *)

Definition year_text (w : Py.str) : bool :=
  match w with
  | [a; b; c; d] =>
    Py.isdecimal a && Py.isdecimal b && Py.isdecimal c && Py.isdecimal d
  | _ => false
  end.

Definition month_text (w : Py.str) : bool :=
  match w with
  | [a] => Re.range 49 57 a
  | [a; b] => ((a =? 49) && Re.range 48 50 b) || ((a =? 48) && Re.range 49 57 b)
  | _ => false
  end.

Definition day_text (w : Py.str) : bool :=
  match w with
  | [a] => Re.range 49 57 a
  | [a; b] =>
    ((a =? 51) && Re.range 48 49 b) || (Re.range 49 50 a && Py.isdecimal b)
    || ((a =? 48) && Re.range 49 57 b) || ((a =? 32) && Re.range 49 57 b)
  | _ => false
  end.

Definition gap_text (w : Py.str) : bool :=
  match w with
  | [] => false
  | _ => forallb Py.isspace w
  end.

Definition hour_text (w : Py.str) : bool :=
  match w with
  | [a] => Py.isdecimal a
  | [a; b] => ((a =? 50) && Re.range 48 51 b) || (Re.range 48 49 a && Py.isdecimal b)
  | _ => false
  end.

Definition minute_text (w : Py.str) : bool :=
  match w with
  | [a] => Py.isdecimal a
  | [a; b] => Re.range 48 53 a && Py.isdecimal b
  | _ => false
  end.

(** [reads_as s dt]: [s] is year, "-", month, "-", day, gap, hour, ":",
    minute in the forms above, the date exists, and [dt] is that minute. *)
Definition reads_as (s : Py.str) (dt : datetime) : Prop :=
  exists Y m d W H M : Py.str,
    s = Y ++ [45] ++ m ++ [45] ++ d ++ W ++ H ++ [58] ++ M
    /\ year_text Y = true /\ month_text m = true /\ day_text d = true
    /\ gap_text W = true /\ hour_text H = true /\ minute_text M = true
    /\ exists y mo da h mi : N,
         py_int Y = Ok y /\ py_int m = Ok mo /\ py_int d = Ok da
         /\ py_int H = Ok h /\ py_int M = Ok mi
         /\ 1 <= y <= 9999 /\ 1 <= mo <= 12
         /\ 1 <= da <= days_in_month y mo /\ h <= 23 /\ mi <= 59
         /\ dt = mkdt y mo da h mi 0 0.

Definition lenient_pattern (s : Py.str) : Prop := exists dt, reads_as s dt.

(** A text of white space only. *)
Definition blank (s : Py.str) : Prop := Forall (fun c => Py.isspace c = true) s.

(** The three checks of [call_ai] (lines 54, 58-59 and 65), as one condition
    on the trimmed credential. *)
Definition key_accepted (api_key : Py.str) : Prop :=
  api_key <> [] /\ Forall (fun c => c <= 127) api_key
  /\ Py.startswith api_key (Py.lit "sk-") = true.

(** The request that lines 76-90 build. *)
Definition request_for (api_key raw_text : Py.str) : request :=
  mkreq api_key (Py.lit "gpt-4o-mini") system_prompt
    (Py.lit "[원문]" ++ LF ++ raw_text ++ LF).

(** Digits without their leading zeros (the last digit stays). *)
Fixpoint unpadded (s : Py.str) : Py.str :=
  match s with
  | c :: (_ :: _) as r => if c =? 48 then unpadded r else s
  | _ => s
  end.

(** A secrets file that holds the credential as a [str], or that does not
    have the key. *)
Definition stored (secret : option Py.str) : result pyval :=
  Ok (from_option PyStr PyNone secret).

(** A client on a network that is the log of the requests sent so far: it
    puts the request it is given on the wire once for each attempt (the
    OpenAI client tries again after a failed attempt) and nothing else;
    [answer] gives the outcome and the number of attempts. *)
Definition resending (answer : request -> result Py.str * nat)
    (r : request) (sent : list request) : result Py.str * list request :=
  ((answer r).1, sent ++ repeat r (answer r).2).

(** The label of lines 167-169, once the three keys are there. *)
Definition label_of (priority task due : pyval) : Py.str :=
  Py.lit "[" ++ format priority ++ Py.lit "] " ++ format task
  ++ (if truthy due then Py.lit " (마감: " ++ format due ++ Py.lit ")" else []).

(* ===================================================================== *)
(** ** Sample inputs *)
(* ===================================================================== *)

(** A task with a description and a given value under "due_local". *)
Definition report_task (due : pyval) : gmap string pyval :=
  {[ "task" := PyStr (Py.lit "Submit report"); "due_local" := due ]}.

(** The deadline written with slashes, and with a one-digit month and hour. *)
Definition slash_task : gmap string pyval :=
  report_task (PyStr (Py.lit "2025/03/10 09:00")).

Definition short_task : gmap string pyval :=
  report_task (PyStr (Py.lit "2025-3-10 9:00")).


(** Three worlds: a clock that never moves, a clock that counts the seconds
    since midnight, and a clock stopped at noon. *)
Definition fixed_clock (u : unit) : datetime * unit :=
  (mkdt 2026 11 4 0 0 0 0, u).

Definition ticking_clock (n : N) : datetime * N :=
  (mkdt 2026 11 4 (n / 3600) ((n / 60) mod 60) (n mod 60) 0, n + 1).

Definition noon_clock (u : unit) : datetime * unit :=
  (mkdt 2026 11 4 12 0 0 0, u).

(** A backend that answers every request, at the first attempt, with the
    text it was sent. *)
Definition echo_backend : request -> list request -> result Py.str * list request :=
  resending (fun r => (Ok (req_user r), 1%nat)).

(** A key with a byte-order mark in front and eleven zero-width spaces
    behind. *)
Definition dirty_key : Py.str :=
  [65279] ++ Py.lit "sk-ab" ++ repeat 8203 11%nat.

(** Only [ValueError] comes out of a computation. *)
Definition value_errors {A} (r : result A) : Prop :=
  forall e, r = Raise e -> e = ValueError.


(** Tasks with a number for a description. *)
Definition number_task : gmap string pyval :=
  {[ "task" := PyInt 7; "due_local" := PyStr (Py.lit "next Friday") ]}.

Definition number_dated_task : gmap string pyval :=
  {[ "task" := PyInt 7; "due_local" := PyStr (Py.lit "2025-03-10 09:00") ]}.

(** A task as [SCHEMA] wants it. *)
Definition quiz_task : gmap string pyval :=
  {[ "task" := PyStr (Py.lit "Quiz"); "due_local" := PyStr (Py.lit " 2025-03-10T09:00");
     "priority" := PyStr (Py.lit "high"); "source_quote" := PyStr [] ]}.

Definition undated_quiz_task : gmap string pyval :=
  {[ "task" := PyStr (Py.lit "Quiz"); "due_local" := PyNone;
     "priority" := PyStr (Py.lit "low");
     "source_quote" := PyStr (Py.lit "There will be a quiz.") ]}.

(** A backend that is down (the client gives up after three attempts), a PDF
    of one page, and a notice long enough for the button. *)
Definition failing_backend : request -> list request -> result Py.str * list request :=
  resending (fun _ => (Raise InternalServerError, 3%nat)).

Definition one_page {Upload} (text : Py.str) (f : Upload) : result (list Py.str) :=
  Ok [text].

Definition long_notice : Py.str := Py.lit "Submit the report by 2025-03-10 09:00.".

(* ===================================================================== *)
(** ** Proof steps used more than once *)
(* ===================================================================== *)

Ltac inv_matches :=
  repeat match goal with
  | H : Re.matches (Re.Cat _ _) _ _ _ |- _ => inversion H; clear H; subst
  | H : Re.matches (Re.Alt _ _) _ _ _ |- _ => inversion H; clear H; subst
  | H : Re.matches (Re.Lit _) _ _ _ |- _ => inversion H; clear H; subst
  | H : Re.matches (Re.Cls _) _ _ _ |- _ => inversion H; clear H; subst
  | H : Re.matches (Re.Grp _ _) _ _ _ |- _ => inversion H; clear H; subst
  end.

Ltac text_ok :=
  simpl; repeat match goal with H : _ = true |- _ => rewrite H; clear H end;
  rewrite ?N.eqb_refl, ?orb_true_r; reflexivity.

Ltac eval_lits :=
  repeat match goal with
  | |- context [Py.lit ?s] =>
    let v := eval vm_compute in (Py.lit s) in change (Py.lit s) with v
  end.

Ltac bool_to_prop :=
  repeat match goal with
  | H : _ && _ = true |- _ => apply andb_prop in H as [? ?]
  | H : _ && _ = false |- _ => apply andb_false_iff in H as [?|?]
  | H : (_ <=? _) = true |- _ => apply N.leb_le in H
  | H : (_ <=? _) = false |- _ => apply N.leb_gt in H
  | H : (_ <? _) = true |- _ => apply N.ltb_lt in H
  | H : (_ <? _) = false |- _ => apply N.ltb_ge in H
  | H : (_ =? _) = true |- _ => apply N.eqb_eq in H
  | H : (_ =? _) = false |- _ => apply N.eqb_neq in H
  end.

(* ===================================================================== *)
(** ** Lemmas *)
(* ===================================================================== *)

Section RegexSound.
Context {A : Type}.
Implicit Types (k : Py.str -> Re.groups -> option A).

Lemma greedy_sound p s (k : Py.str -> option A) x :
  Re.greedy p s k = Some x ->
  exists w s', s = w ++ s' /\ w <> [] /\ Forall (fun c => p c = true) w
               /\ k s' = Some x.
Proof.
  induction s as [|c s IH]; simpl; [discriminate|].
  destruct (p c) eqn:Hc; [|discriminate].
  destruct (Re.greedy p s k) as [y|] eqn:E.
  - intros [= ->]. destruct (IH eq_refl) as (w & s' & -> & _ & Hw & Hk).
    exists (c :: w), s'. split_and!; auto.
  - intros Hk. exists [c], s. split_and!; auto.
Qed.

Lemma sre_match_sound r : forall s g k x,
  Re.sre_match r s g k = Some x ->
  exists w s' g', s = w ++ s' /\ Re.matches r w g g' /\ k s' g' = Some x.
Proof.
  induction r as [|c|p|r1 IH1 r2 IH2|r1 IH1 r2 IH2|p|name r IH];
    intros s g k x; simpl.
  - intros Hk. exists [], s, g. split_and!; auto. constructor.
  - destruct s as [|c' s']; [discriminate|].
    destruct (c' =? c) eqn:E; [|discriminate].
    apply N.eqb_eq in E as ->. intros Hk.
    exists [c], s', g. repeat split; auto. constructor.
  - destruct s as [|c' s']; [discriminate|].
    destruct (p c') eqn:E; [|discriminate]. intros Hk.
    exists [c'], s', g. repeat split; auto. by constructor.
  - intros H. apply IH1 in H as (w1 & s1 & g1 & -> & M1 & H).
    apply IH2 in H as (w2 & s2 & g2 & -> & M2 & H).
    exists (w1 ++ w2), s2, g2. rewrite <- app_assoc. repeat split; auto.
    econstructor; eauto.
  - destruct (Re.sre_match r1 s g k) as [y|] eqn:E.
    + intros [= ->]. apply IH1 in E as (w & s' & g' & -> & M & H).
      exists w, s', g'. repeat split; auto. by apply Re.m_alt_l.
    + intros H. apply IH2 in H as (w & s' & g' & -> & M & H).
      exists w, s', g'. repeat split; auto. by apply Re.m_alt_r.
  - intros H. apply greedy_sound in H as (w & s' & -> & Hne & Hw & H).
    exists w, s', g. repeat split; auto. by constructor.
  - intros H. apply IH in H as (w & s' & g' & -> & M & H).
    rewrite length_app, Nat.add_sub, take_app_length in H.
    exists w, s', ((name, w) :: g'). repeat split; auto. by constructor.
Qed.
End RegexSound.

Lemma re_match_sound r s e gd :
  Re.re_match r s = Some (e, gd) ->
  exists w s', s = w ++ s' /\ Re.matches r w [] gd /\ e = length w.
Proof.
  unfold Re.re_match. intros H.
  apply sre_match_sound in H as (w & s' & g' & -> & M & [= <- <-]).
  exists w, s'. repeat split; auto. rewrite length_app. lia.
Qed.

Lemma pattern_due :
  pattern "%Y-%m-%d %H:%M" =
  Some (Re.Cat re_Y (Re.Cat (Re.Lit 45) (Re.Cat re_m (Re.Cat (Re.Lit 45)
       (Re.Cat re_d (Re.Cat (Re.ClsPlus Py.isspace)
       (Re.Cat re_H (Re.Cat (Re.Lit 58) re_M)))))))).
Proof. reflexivity. Qed.

Lemma matches_Y w g g' :
  Re.matches re_Y w g g' -> g' = ("Y"%string, w) :: g /\ year_text w = true.
Proof. unfold re_Y, digit. intros H. inv_matches. split; [done|text_ok]. Qed.

Lemma matches_m w g g' :
  Re.matches re_m w g g' -> g' = ("m"%string, w) :: g /\ month_text w = true.
Proof. unfold re_m. intros H. inv_matches; (split; [done|text_ok]). Qed.

Lemma matches_d w g g' :
  Re.matches re_d w g g' -> g' = ("d"%string, w) :: g /\ day_text w = true.
Proof. unfold re_d, digit. intros H. inv_matches; (split; [done|text_ok]). Qed.

Lemma matches_H w g g' :
  Re.matches re_H w g g' -> g' = ("H"%string, w) :: g /\ hour_text w = true.
Proof. unfold re_H, digit. intros H. inv_matches; (split; [done|text_ok]). Qed.

Lemma matches_M w g g' :
  Re.matches re_M w g g' -> g' = ("M"%string, w) :: g /\ minute_text w = true.
Proof. unfold re_M, digit. intros H. inv_matches; (split; [done|text_ok]). Qed.

Lemma matches_gap w g g' :
  Re.matches (Re.ClsPlus Py.isspace) w g g' -> g' = g /\ gap_text w = true.
Proof.
  intros H. inversion H as [| | | | | |p w' g0 Hne Hall|]; subst.
  split; [done|].
  destruct w as [|c w]; [done|]. unfold gap_text.
  apply forallb_forall. intros x Hx. rewrite Forall_forall in Hall.
  apply Hall. by apply list_elem_of_In.
Qed.

Lemma datetime_new_ok y mo d h mi s us dt :
  datetime_new y mo d h mi s us = Ok dt ->
  1 <= y <= 9999 /\ 1 <= mo <= 12 /\ 1 <= d <= days_in_month y mo
  /\ h <= 23 /\ mi <= 59 /\ dt = mkdt y mo d h mi s us.
Proof.
  unfold datetime_new.
  destruct (_ && _) eqn:E; [|discriminate]. intros [= <-].
  repeat (apply andb_prop in E as [E ?]).
  repeat match goal with H : (_ <=? _) = true |- _ => apply N.leb_le in H end.
  auto 10.
Qed.

Lemma bind_ok {A B} (r : result A) (f : A -> result B) b :
  (r ≫= f) = Ok b -> exists a, r = Ok a /\ f a = Ok b.
Proof. destruct r as [a|e]; [|discriminate]. intros H. by exists a. Qed.

Lemma strptime_sound s dt :
  _strptime s "%Y-%m-%d %H:%M" = Ok dt -> reads_as s dt.
Proof.
  unfold _strptime. rewrite pattern_due.
  destruct (Re.re_match _ s) as [[e gd]|] eqn:E; [|discriminate].
  destruct (length s =? e)%nat eqn:El; [|discriminate]. simpl.
  apply Nat.eqb_eq in El.
  apply re_match_sound in E as (w & s' & -> & M & ->).
  rewrite length_app in El. destruct s'; [|simpl in El; lia].
  rewrite app_nil_r. clear El.
  inv_matches.
  repeat match goal with
  | H : Re.matches re_Y _ _ _ |- _ => apply matches_Y in H as [-> ?]
  | H : Re.matches re_m _ _ _ |- _ => apply matches_m in H as [-> ?]
  | H : Re.matches re_d _ _ _ |- _ => apply matches_d in H as [-> ?]
  | H : Re.matches re_H _ _ _ |- _ => apply matches_H in H as [-> ?]
  | H : Re.matches re_M _ _ _ |- _ => apply matches_M in H as [-> ?]
  | H : Re.matches (Re.ClsPlus _) _ _ _ |- _ => apply matches_gap in H as [-> ?]
  end.
  unfold field; simpl.
  intros Hf.
  apply bind_ok in Hf as (y & Hy & Hf).
  apply bind_ok in Hf as (mo & Hmo & Hf).
  apply bind_ok in Hf as (da & Hda & Hf).
  apply bind_ok in Hf as (h & Hh & Hf).
  apply bind_ok in Hf as (mi & Hmi & Hf).
  apply datetime_new_ok in Hf as (? & ? & ? & ? & ? & ->).
  unfold reads_as. do 6 eexists. split; [reflexivity|].
  split_and!; try done.
  exists y, mo, da, h, mi. split_and!; (done || lia).
Qed.

(** *** The matcher finds what the pattern describes *)

Lemma take_sub_1 (a : N) s :
  take (length (a :: s) - length s) (a :: s) = [a].
Proof. replace (length (a :: s) - length s)%nat with 1%nat by (simpl; lia). done. Qed.

Lemma take_sub_2 (a b : N) s :
  take (length (a :: b :: s) - length s) (a :: b :: s) = [a; b].
Proof. replace (length (a :: b :: s) - length s)%nat with 2%nat by (simpl; lia). done. Qed.

Lemma take_sub_4 (a b c d : N) s :
  take (length (a :: b :: c :: d :: s) - length s) (a :: b :: c :: d :: s) = [a; b; c; d].
Proof.
  replace (length (a :: b :: c :: d :: s) - length s)%nat with 4%nat by (simpl; lia).
  done.
Qed.

(** White space is not a digit. *)
Lemma isspace_not_decimal c : Py.isspace c = true -> Py.isdecimal c = false.
Proof.
  unfold Py.isspace. intros H.
  repeat (apply orb_prop in H as [H|H]); bool_to_prop.
  all: try (subst c; reflexivity).
  - assert (c = 9 \/ c = 10 \/ c = 11 \/ c = 12 \/ c = 13) as Hc by lia.
    destruct Hc as [->|[->|[->|[->| ->]]]]; reflexivity.
  - assert (c = 28 \/ c = 29 \/ c = 30 \/ c = 31 \/ c = 32) as Hc by lia.
    destruct Hc as [->|[->|[->|[->| ->]]]]; reflexivity.
  - assert (c = 0x2000 \/ c = 0x2001 \/ c = 0x2002 \/ c = 0x2003 \/ c = 0x2004
            \/ c = 0x2005 \/ c = 0x2006 \/ c = 0x2007 \/ c = 0x2008
            \/ c = 0x2009 \/ c = 0x200A) as Hc by lia.
    repeat (destruct Hc as [->|Hc]; [reflexivity|]). subst c. reflexivity.
Qed.

(** An ASCII digit is a digit. *)
Lemma ascii_digit_decimal c : Re.range 48 57 c = true -> Py.isdecimal c = true.
Proof.
  unfold Re.range. intros H. bool_to_prop.
  unfold Py.isdecimal, Py.to_decimal, Py.decimal_zeros.
  cbn [List.find].
  replace ((48 <=? c) && (c <? 48 + 10)) with true; [done|].
  symmetry. apply andb_true_intro. split; [apply N.leb_le|apply N.ltb_lt]; lia.
Qed.

Section Forward.
Context {A : Type}.
Implicit Types (k : Py.str -> Re.groups -> option A).

Ltac range_facts :=
  unfold Re.range in *; bool_to_prop.

Ltac decide_ifs :=
  repeat match goal with
  | |- context [if ?b then _ else _] =>
    let E := fresh "E" in destruct b eqn:E
  end.

(** Every test of the matcher is decided; the branch that is left either
    returns what the continuation returns or contradicts the form of the
    text. *)
Ltac run_alternatives Hk :=
  cbn [Re.sre_match app];
  rewrite ?take_sub_1, ?take_sub_2, ?take_sub_4;
  unfold Py.str, Re.groups in *;
  decide_ifs; rewrite ?Hk; try reflexivity;
  exfalso; unfold Re.range in *; bool_to_prop; try discriminate; try lia.

Lemma fwd_Y Y rest g k x :
  year_text Y = true -> k rest (("Y"%string, Y) :: g) = Some x ->
  Re.sre_match re_Y (Y ++ rest) g k = Some x.
Proof.
  destruct Y as [|a [|b [|c [|d [|]]]]]; try discriminate. simpl year_text.
  intros H Hk. repeat (apply andb_prop in H as [H ?]).
  unfold re_Y, digit. run_alternatives Hk.
Qed.

Lemma fwd_m m rest g k x :
  month_text m = true -> k (45 :: rest) (("m"%string, m) :: g) = Some x ->
  Re.sre_match re_m (m ++ 45 :: rest) g k = Some x.
Proof.
  destruct m as [|a [|b [|]]]; try discriminate; simpl month_text;
    intros H Hk; unfold re_m; run_alternatives Hk.
Qed.

Lemma fwd_d d c0 rest g k x :
  day_text d = true -> Py.isspace c0 = true ->
  k (c0 :: rest) (("d"%string, d) :: g) = Some x ->
  Re.sre_match re_d (d ++ c0 :: rest) g k = Some x.
Proof.
  intros H Hc Hk. pose proof (isspace_not_decimal _ Hc) as Hnd.
  assert (Re.range 48 57 c0 = false) as Hna.
  { destruct (Re.range 48 57 c0) eqn:E; [|done].
    apply ascii_digit_decimal in E. congruence. }
  destruct d as [|a [|b [|]]]; try discriminate; simpl day_text in H;
    unfold re_d, digit; run_alternatives Hk.
Qed.

Lemma greedy_cons p c s (k : Py.str -> option A) :
  Re.greedy p (c :: s) k =
  if p c then match Re.greedy p s k with Some x => Some x | None => k s end
  else None.
Proof. reflexivity. Qed.

Lemma greedy_fwd c0 rest (k : Py.str -> option A) x W : forall w,
  forallb Py.isspace (w :: W) = true -> Py.isspace c0 = false ->
  k (c0 :: rest) = Some x ->
  Re.greedy Py.isspace (w :: W ++ c0 :: rest) k = Some x.
Proof.
  induction W as [|w' W IH]; intros w HW Hc Hk;
    cbn [forallb] in HW; apply andb_prop in HW as [Hw HW];
    rewrite greedy_cons, Hw.
  - cbn [app]. by rewrite greedy_cons, Hc.
  - cbn [app]. by rewrite (IH w' HW Hc Hk).
Qed.

Lemma fwd_gap W c0 rest g k x :
  gap_text W = true -> Py.isspace c0 = false ->
  k (c0 :: rest) g = Some x ->
  Re.sre_match (Re.ClsPlus Py.isspace) (W ++ c0 :: rest) g k = Some x.
Proof.
  intros HW Hc Hk. destruct W as [|w W]; [discriminate|].
  cbn [Re.sre_match]. by apply greedy_fwd.
Qed.

Lemma fwd_H H rest g k x :
  hour_text H = true -> k (58 :: rest) (("H"%string, H) :: g) = Some x ->
  Re.sre_match re_H (H ++ 58 :: rest) g k = Some x.
Proof.
  intros HH Hk.
  assert (Py.isdecimal 58 = false) as Hcolon by reflexivity.
  destruct H as [|a [|b [|]]]; try discriminate; simpl hour_text in HH;
    unfold re_H, digit; run_alternatives Hk.
Qed.

Lemma fwd_M M g k x :
  minute_text M = true -> k [] (("M"%string, M) :: g) = Some x ->
  Re.sre_match re_M M g k = Some x.
Proof.
  intros HM Hk.
  destruct M as [|a [|b [|]]]; try discriminate; simpl minute_text in HM;
    unfold re_M, digit.
  - cbn [Re.sre_match take length Nat.sub].
    unfold Py.str, Re.groups in *.
    decide_ifs; rewrite ?Hk; try reflexivity; discriminate.
  - cbn [Re.sre_match take length Nat.sub].
    unfold Py.str, Re.groups in *.
    decide_ifs; rewrite ?Hk; try reflexivity; discriminate.
Qed.
End Forward.

Lemma hour_text_head H :
  hour_text H = true -> exists c0 H', H = c0 :: H' /\ Py.isspace c0 = false.
Proof.
  intros HH. destruct H as [|a H']; [discriminate|]. exists a, H'. split; [done|].
  assert (Py.isdecimal a = true) as Ha.
  { destruct H' as [|b [|]]; try discriminate; simpl in HH; [done|].
    apply orb_prop in HH as [HH|HH]; apply andb_prop in HH as [HH _].
    - apply N.eqb_eq in HH as ->. reflexivity.
    - apply ascii_digit_decimal. unfold Re.range in *. bool_to_prop.
      apply andb_true_intro. split; apply N.leb_le; lia. }
  destruct (Py.isspace a) eqn:E; [|done].
  apply isspace_not_decimal in E. congruence.
Qed.

Lemma datetime_new_in_range y mo d h mi :
  1 <= y <= 9999 -> 1 <= mo <= 12 -> 1 <= d <= days_in_month y mo ->
  h <= 23 -> mi <= 59 ->
  datetime_new y mo d h mi 0 0 = Ok (mkdt y mo d h mi 0 0).
Proof.
  intros. unfold datetime_new.
  replace (_ && _) with true; [done|]. symmetry.
  repeat (apply andb_true_intro; split); apply N.leb_le; lia.
Qed.

(** Whatever has the form is parsed, to the datetime it denotes. *)
Lemma strptime_complete s dt :
  reads_as s dt -> _strptime s "%Y-%m-%d %H:%M" = Ok dt.
Proof.
  intros (Y & m & d & W & H & M & -> & HY & Hm & Hd & HW & HH & HM
          & y & mo & da & h & mi & Ey & Emo & Eda & Eh & Emi
          & Ry & Rmo & Rda & Rh & Rmi & ->).
  unfold _strptime. rewrite pattern_due.
  set (s := Y ++ [45] ++ m ++ [45] ++ d ++ W ++ H ++ [58] ++ M).
  assert (Re.re_match
            (Re.Cat re_Y (Re.Cat (Re.Lit 45) (Re.Cat re_m (Re.Cat (Re.Lit 45)
              (Re.Cat re_d (Re.Cat (Re.ClsPlus Py.isspace)
                (Re.Cat re_H (Re.Cat (Re.Lit 58) re_M)))))))) s
          = Some (length s,
                  [("M"%string, M); ("H"%string, H); ("d"%string, d);
                   ("m"%string, m); ("Y"%string, Y)])) as ->.
  { unfold Re.re_match. subst s.
    destruct W as [|w0 W']; [discriminate|].
    assert (Py.isspace w0 = true) as Hw0
      by (simpl in HW; by apply andb_prop in HW as [? _]).
    destruct (hour_text_head H HH) as (c0 & H' & EH & Hc0).
    cbn [Re.sre_match]. apply fwd_Y; [done|].
    cbn [app Re.sre_match]. rewrite N.eqb_refl. apply fwd_m; [done|].
    cbn [app Re.sre_match]. rewrite N.eqb_refl. apply fwd_d; [done..|].
    rewrite EH. cbn [app Re.sre_match].
    apply greedy_fwd; [exact HW|exact Hc0|].
    change (c0 :: H' ++ 58 :: M) with ((c0 :: H') ++ 58 :: M).
    rewrite <- EH. apply fwd_H; [done|].
    cbn [Re.sre_match]. rewrite N.eqb_refl. apply fwd_M; [done|].
    do 2 f_equal. simpl. lia. }
  rewrite Nat.eqb_refl. cbn [negb]. unfold field. cbn [Re.group String.eqb Ascii.eqb Bool.eqb].
  rewrite Ey, Emo, Eda, Eh, Emi. cbn [mbind result_bind].
  by apply datetime_new_in_range.
Qed.

Lemma strptime_reads_as s dt :
  _strptime s "%Y-%m-%d %H:%M" = Ok dt <-> reads_as s dt.
Proof. split; [apply strptime_sound|apply strptime_complete]. Qed.

(** *** The strict pattern is within the lenient one *)

Lemma to_decimal_ascii c :
  ascii_digit c = true -> Py.to_decimal c = Some (c - 48).
Proof.
  unfold ascii_digit. intros H. bool_to_prop.
  unfold Py.to_decimal, Py.decimal_zeros. cbn [List.find].
  replace ((48 <=? c) && (c <? 48 + 10)) with true; [done|].
  symmetry. apply andb_true_intro. split; [apply N.leb_le|apply N.ltb_lt]; lia.
Qed.

Lemma int_space_ascii c : ascii_digit c = true -> Py.int_space c = false.
Proof.
  unfold ascii_digit, Py.int_space. intros H. bool_to_prop.
  replace (c <? 127) with true by (symmetry; apply N.ltb_lt; lia).
  apply orb_false_intro; [apply andb_false_intro2|]; [apply N.leb_gt|apply N.eqb_neq]; lia.
Qed.

Lemma py_int_2 a b :
  ascii_digit a = true -> ascii_digit b = true ->
  py_int [a; b] = Ok (two_digits a b).
Proof.
  intros Ha Hb. unfold py_int. cbn [int_lstrip rev app].
  rewrite (int_space_ascii a Ha). cbn [rev app int_lstrip].
  rewrite (int_space_ascii b Hb). cbn [rev app int_digits].
  rewrite (to_decimal_ascii a Ha), (to_decimal_ascii b Hb).
  unfold two_digits. f_equal; lia.
Qed.

Lemma py_int_4 a b c d :
  ascii_digit a = true -> ascii_digit b = true ->
  ascii_digit c = true -> ascii_digit d = true ->
  py_int [a; b; c; d] = Ok (100 * two_digits a b + two_digits c d).
Proof.
  intros Ha Hb Hc Hd. unfold py_int. cbn [int_lstrip rev app].
  rewrite (int_space_ascii a Ha). cbn [rev app int_lstrip].
  rewrite (int_space_ascii d Hd). cbn [rev app int_digits].
  rewrite (to_decimal_ascii a Ha), (to_decimal_ascii b Hb),
    (to_decimal_ascii c Hc), (to_decimal_ascii d Hd).
  unfold two_digits. f_equal; lia.
Qed.

Lemma ascii_digit_isdecimal c : ascii_digit c = true -> Py.isdecimal c = true.
Proof. intros H. unfold Py.isdecimal. by rewrite to_decimal_ascii. Qed.

Lemma days_in_month_le y m : days_in_month y m <= 31.
Proof.
  unfold days_in_month.
  repeat match goal with |- context [if ?b then _ else _] => destruct b end; lia.
Qed.

Lemma strict_pattern_reads_as s :
  strict_pattern s = true -> lenient_pattern s.
Proof.
  unfold strict_pattern.
  destruct s as [|y1 [|y2 [|y3 [|y4 [|p1 [|m1 [|m2 [|p2 [|d1 [|d2 [|sp
    [|h1 [|h2 [|co [|n1 [|n2 [|]]]]]]]]]]]]]]]]]; try discriminate.
  cbn [forallb]. intros H.
  bool_to_prop. subst.
  pose proof (days_in_month_le (100 * two_digits y1 y2 + two_digits y3 y4)
                (two_digits m1 m2)) as Hdim.
  assert (forall c, ascii_digit c = true -> 48 <= c <= 57) as Hrange.
  { intros c Hc. unfold ascii_digit in Hc. bool_to_prop. lia. }
  repeat match goal with
  | E : ascii_digit ?c = true |- _ =>
    lazymatch goal with
    | _ : 48 <= c <= 57 |- _ => fail
    | _ => pose proof (Hrange c E)
    end
  end.
  unfold two_digits in *.
  exists (mkdt (100 * (10 * (y1 - 48) + (y2 - 48)) + (10 * (y3 - 48) + (y4 - 48)))
               (10 * (m1 - 48) + (m2 - 48)) (10 * (d1 - 48) + (d2 - 48))
               (10 * (h1 - 48) + (h2 - 48)) (10 * (n1 - 48) + (n2 - 48)) 0 0).
  exists [y1; y2; y3; y4], [m1; m2], [d1; d2], [32], [h1; h2], [n1; n2].
  split; [reflexivity|]. split_and!.
  - simpl. rewrite !ascii_digit_isdecimal by done. reflexivity.
  - simpl. unfold Re.range.
    destruct (N.eq_dec m1 49) as [->|]; [|destruct (N.eq_dec m1 48) as [->|]; [|lia]].
    + apply orb_true_intro. left. apply andb_true_intro. split; [done|].
      apply andb_true_intro. split; apply N.leb_le; lia.
    + apply orb_true_intro. right. apply andb_true_intro. split; [done|].
      apply andb_true_intro. split; apply N.leb_le; lia.
  - simpl. unfold Re.range. rewrite (ascii_digit_isdecimal d2) by done.
    rewrite andb_true_r.
    destruct (N.eq_dec d1 51) as [->|];
      [|destruct (N.eq_dec d1 48) as [->|]].
    + replace ((48 <=? d2) && (d2 <=? 49)) with true; [done|].
      symmetry. apply andb_true_intro. split; apply N.leb_le; lia.
    + replace ((49 <=? d2) && (d2 <=? 57)) with true; [by rewrite !orb_true_r|].
      symmetry. apply andb_true_intro. split; apply N.leb_le; lia.
    + replace ((49 <=? d1) && (d1 <=? 50)) with true; [by rewrite !orb_true_r|].
      symmetry. apply andb_true_intro. split; apply N.leb_le; lia.
  - reflexivity.
  - simpl. unfold Re.range. rewrite (ascii_digit_isdecimal h2) by done.
    rewrite andb_true_r.
    destruct (N.eq_dec h1 50) as [->|].
    + replace ((48 <=? h2) && (h2 <=? 51)) with true; [done|].
      symmetry. apply andb_true_intro. split; apply N.leb_le; lia.
    + replace ((48 <=? h1) && (h1 <=? 49)) with true; [by rewrite !orb_true_r|].
      symmetry. apply andb_true_intro. split; apply N.leb_le; lia.
  - simpl. unfold Re.range. rewrite (ascii_digit_isdecimal n2) by done.
    rewrite andb_true_r. apply andb_true_intro. split; apply N.leb_le; lia.
  - eexists _, _, _, _, _.
    rewrite py_int_4, !py_int_2 by done. unfold two_digits.
    split_and!; try reflexivity; lia.
Qed.

Lemma value_errors_bind {A B} (r : result A) (f : A -> result B) :
  value_errors r -> (forall a, value_errors (f a)) -> value_errors (r ≫= f).
Proof.
  intros Hr Hf e. destruct r as [a|e']; [apply Hf|].
  intros [= <-]. by apply Hr.
Qed.

Lemma value_errors_py_int w : value_errors (py_int w).
Proof.
  unfold py_int. intros e.
  destruct (rev _); [by intros [= <-]|].
  destruct (int_digits _ _); [discriminate|by intros [= <-]].
Qed.

Lemma value_errors_field g name dflt : value_errors (field g name dflt).
Proof.
  unfold field. destruct (Re.group g name); [apply value_errors_py_int|].
  intros e. discriminate.
Qed.

Lemma value_errors_datetime_new y mo d h mi s us :
  value_errors (datetime_new y mo d h mi s us).
Proof. unfold datetime_new. intros e. destruct (_ && _); [discriminate|by intros [= <-]]. Qed.

Lemma value_errors_strptime s format : value_errors (_strptime s format).
Proof.
  unfold _strptime.
  destruct (pattern format); [|by intros e [= <-]].
  destruct (Re.re_match _ _) as [[e_ gd]|]; [|by intros e [= <-]].
  destruct (negb _); [by intros e [= <-]|].
  repeat (apply value_errors_bind; [apply value_errors_field|intros ?]).
  apply value_errors_datetime_new.
Qed.

(** [emit] on a [str]. *)
Lemma emit_str tzid now_utc i t s lines :
  emit tzid now_utc i t (PyStr s) lines =
  match _strptime s "%Y-%m-%d %H:%M" with
  | Ok dt =>
    summary ← summary_of t;
    Ok (lines ++ vevent tzid now_utc (uid_of i dt) (stamp dt) (stamp dt) summary)
  | Raise _ => Ok lines
  end.
Proof.
  unfold emit, strptime.
  destruct (_strptime s _) as [dt|e] eqn:E; [reflexivity|].
  by rewrite (value_errors_strptime _ _ _ E).
Qed.

(** The words that line 111 passes over do not start with a digit. *)
Lemma lower_cons_first c w k ks :
  Py.lower (c :: w) = k :: ks -> (65 <=? k) && (k <=? 90) = false ->
  k <> 105 -> k <> 107 -> c = k \/ c + 32 = k.
Proof.
  unfold Py.lower. simpl. unfold Py.tolower.
  destruct ((65 <=? c) && (c <=? 90)) eqn:E1.
  { intros [= <- _]. auto. }
  destruct (c =? 0x130); [intros [= <- _]; done|].
  destruct (c =? 0x212A); [intros [= <- _]; done|].
  intros [= <- _]. auto.
Qed.

Lemma null_token_unparsed s :
  Py.lower (Py.strip s) ∈ [Py.lit "null"; Py.lit "none"; Py.lit ""] ->
  _strptime (normalized s) "%Y-%m-%d %H:%M" = Raise ValueError.
Proof.
  intros Hin. unfold normalized.
  destruct (_strptime _ _) as [dt|e] eqn:E.
  2:{ by rewrite (value_errors_strptime _ _ _ E). }
  exfalso. apply strptime_sound in E as (Y & m & d & W & H & M & Hs & HY & _).
  destruct Y as [|a [|b [|c [|d' [|]]]]]; try discriminate.
  destruct (Py.strip s) as [|c0 w] eqn:Es; [discriminate|].
  simpl in Hs. injection Hs as Ha _.
  simpl in HY. apply andb_prop in HY as [HY _]. apply andb_prop in HY as [HY _].
  apply andb_prop in HY as [HY _].
  assert (c0 = 110 \/ c0 + 32 = 110) as Hc.
  { rewrite !elem_of_cons in Hin. destruct Hin as [Hl|[Hl|[Hl|Hl]]].
    - eapply lower_cons_first; [exact Hl|done..].
    - eapply lower_cons_first; [exact Hl|done..].
    - unfold Py.lower in Hl. simpl in Hl. unfold Py.tolower in Hl.
      repeat destruct (_ : bool) in Hl; discriminate.
    - by apply elem_of_nil in Hl. }
  assert (c0 = 110 \/ c0 = 78) as [->| ->] by lia; subst a; done.
Qed.

(** One turn of the loop, in full. *)
Lemma to_ics_body_eq tzid now_utc i t lines :
  to_ics_body tzid now_utc i t lines =
  match parsed_due t with
  | Some dt =>
    summary ← summary_of t;
    Ok (lines ++ vevent tzid now_utc (uid_of i dt) (stamp dt) (stamp dt) summary)
  | None =>
    match dict_get t "due_local" with
    | PyInt _ => Raise TypeError
    | _ => Ok lines
    end
  end.
Proof.
  unfold to_ics_body, parsed_due.
  destruct (dict_get t "due_local") as [|due|z]; [reflexivity| |reflexivity].
  case_bool_decide as Htok.
  - by rewrite (null_token_unparsed _ Htok).
  - rewrite emit_str. fold (normalized due).
    by destruct (_strptime (normalized due) _).
Qed.

(** *** The summary *)

Lemma summary_of_optional_str t :
  optional_str (dict_get t "task") -> summary_of t = Ok (summary_text t).
Proof.
  unfold summary_of, summary_text.
  intros [->|[s ->]]; [reflexivity|]. by destruct s.
Qed.

(** *** The loop *)

Lemma to_ics_body_TaskItem tzid now_utc i t lines :
  TaskItem t ->
  to_ics_body tzid now_utc i t lines = Ok (lines ++ event_block tzid now_utc i t).
Proof.
  intros [Htask Hdue]. rewrite to_ics_body_eq. unfold event_block.
  destruct (parsed_due t) as [dt|].
  - by rewrite summary_of_optional_str.
  - rewrite app_nil_r. by destruct Hdue as [->|[s ->]].
Qed.

Lemma to_ics_loop_app tzid now_utc pre post : forall i lines,
  to_ics_loop tzid now_utc i (pre ++ post) lines =
  to_ics_loop tzid now_utc i pre lines ≫=
    to_ics_loop tzid now_utc (i + length pre) post.
Proof.
  induction pre as [|t pre IH]; intros i lines; simpl.
  - by rewrite Nat.add_0_r.
  - destruct (to_ics_body _ _ _ _ _) as [lines'|e]; simpl; [|done].
    rewrite IH. by rewrite Nat.add_succ_comm.
Qed.

Lemma to_ics_loop_TaskItems tzid now_utc tasks : forall i lines,
  Forall TaskItem tasks ->
  to_ics_loop tzid now_utc i tasks lines =
  Ok (lines ++ flat_map (fun p => event_block tzid now_utc p.1 p.2)
                        (enumerate_from i tasks)).
Proof.
  induction tasks as [|t tasks IH]; intros i lines Hall; simpl.
  - by rewrite app_nil_r.
  - apply Forall_cons in Hall as [Ht Hall].
    rewrite to_ics_body_TaskItem by done. simpl.
    rewrite IH by done. by rewrite <- app_assoc.
Qed.

(** A task that the body passes over leaves no trace in the document. *)
Lemma to_ics_skip {World} (clk : World -> datetime * World) pre t post tzid w :
  (forall now_utc i lines, to_ics_body tzid now_utc i t lines = Ok lines) ->
  to_ics clk (pre ++ t :: post) tzid w = to_ics clk (pre ++ ∅ :: post) tzid w.
Proof.
  intros Hskip. unfold to_ics. destruct (clk w) as [now w'].
  rewrite !to_ics_loop_app.
  destruct (to_ics_loop _ _ _ pre _) as [lines|e]; [|done].
  simpl. by rewrite Hskip.
Qed.

(** *** Lines *)

Lemma split_lf_one_line l : one_line l -> Py.split_lf l = [l].
Proof.
  induction 1 as [|c l Hc _ IH]; [done|]. simpl.
  destruct (c =? 10) eqn:E; [by apply N.eqb_eq in E|]. by rewrite IH.
Qed.

Lemma split_lf_app l rest :
  one_line l -> Py.split_lf (l ++ 10 :: rest) = l :: Py.split_lf rest.
Proof.
  induction 1 as [|c l Hc _ IH]; [done|]. simpl.
  destruct (c =? 10) eqn:E; [by apply N.eqb_eq in E|]. by rewrite IH.
Qed.

Lemma split_lf_join ls :
  ls <> [] -> Forall one_line ls -> Py.split_lf (Py.join LF ls) = ls.
Proof.
  intros Hne Hall. induction Hall as [|l ls Hl Hls IH]; [done|].
  destruct ls as [|l' ls].
  - simpl. by apply split_lf_one_line.
  - change (Py.join LF (l :: l' :: ls)) with (l ++ 10 :: Py.join LF (l' :: ls)).
    rewrite split_lf_app by done. by rewrite IH.
Qed.

Lemma one_line_app a b : one_line a -> one_line b -> one_line (a ++ b).
Proof. apply Forall_app_2. Qed.

Lemma digits_of_uint_range d :
  Forall (fun c => 48 <= c <= 57) (Py.digits_of_uint d).
Proof. induction d; simpl; constructor; (lia || done). Qed.

Lemma one_line_digits d : one_line (Py.digits_of_uint d).
Proof. eapply Forall_impl; [apply digits_of_uint_range|]. simpl. lia. Qed.

Lemma one_line_zfill w s : one_line s -> one_line (Py.zfill w s).
Proof.
  intros Hs. apply one_line_app; [|done].
  apply Forall_forall. intros c Hc. apply list_elem_of_In, repeat_spec in Hc. by subst.
Qed.

Lemma strftime_stamp dt suffix :
  strftime dt ("%Y%m%dT%H%M%S" +:+ suffix) =
  Py.str_of_N (year dt) ++ Py.zfill 2 (Py.str_of_N (month dt))
  ++ Py.zfill 2 (Py.str_of_N (day dt)) ++ [84]
  ++ Py.zfill 2 (Py.str_of_N (hour dt)) ++ Py.zfill 2 (Py.str_of_N (minute dt))
  ++ Py.zfill 2 (Py.str_of_N (second dt)) ++ strftime dt suffix.
Proof.
  cbn [strftime String.app directive_text]. rewrite <- ?app_assoc. reflexivity.
Qed.

Lemma one_line_stamp_with dt suffix :
  one_line (strftime dt suffix) ->
  one_line (strftime dt ("%Y%m%dT%H%M%S" +:+ suffix)).
Proof.
  intros Hs. rewrite strftime_stamp.
  repeat (apply one_line_app;
          [first [apply one_line_zfill, one_line_digits | apply one_line_digits
                 | by repeat constructor]|]).
  done.
Qed.

Lemma one_line_stamp dt : one_line (stamp dt).
Proof. apply (one_line_stamp_with dt ""). constructor. Qed.

Lemma one_line_now_utc now : one_line (strftime now "%Y%m%dT%H%M%SZ").
Proof. apply (one_line_stamp_with now "Z"). by repeat constructor. Qed.

Lemma Forall_lstrip (P : N -> Prop) s : Forall P s -> Forall P (Py.lstrip s).
Proof.
  induction 1 as [|c s Hc Hs IH]; simpl; [done|].
  destruct (Py.isspace c); [done|by constructor].
Qed.

Lemma Forall_strip (P : N -> Prop) s : Forall P s -> Forall P (Py.strip s).
Proof.
  intros Hs. unfold Py.strip, Py.rstrip.
  apply Forall_rev, Forall_lstrip, Forall_rev, Forall_lstrip, Hs.
Qed.

(** *** [strip] *)

Lemma lstrip_blank_app ws s : blank ws -> Py.lstrip (ws ++ s) = Py.lstrip s.
Proof. induction 1 as [|c ws Hc _ IH]; [done|]. simpl. by rewrite Hc. Qed.

Lemma lstrip_blank s : blank s -> Py.lstrip s = [].
Proof. intros H. rewrite <- (app_nil_r s). by rewrite lstrip_blank_app. Qed.

Lemma lstrip_cons_nonspace c s :
  Py.isspace c = false -> Py.lstrip (c :: s) = c :: s.
Proof. intros H. simpl. by rewrite H. Qed.

Lemma lstrip_split s :
  exists ws, blank ws /\ s = ws ++ Py.lstrip s
             /\ (Py.lstrip s = []
                 \/ exists c r, Py.lstrip s = c :: r /\ Py.isspace c = false).
Proof.
  induction s as [|c s (ws & Hws & Hs & Hhead)].
  - exists []. split_and!; [constructor|done|by left].
  - simpl. destruct (Py.isspace c) eqn:E.
    + exists (c :: ws). split_and!; [by constructor| |done]. simpl. by f_equal.
    + exists []. split_and!; [constructor|done|]. right. eauto.
Qed.

Lemma lstrip_snoc_nonspace s c :
  Py.isspace c = false -> Py.lstrip (s ++ [c]) = Py.lstrip s ++ [c].
Proof.
  intros Hc. induction s as [|d s IH]; simpl; [by rewrite Hc|].
  destruct (Py.isspace d); [exact IH|done].
Qed.

Lemma rstrip_blank_app s ws : blank ws -> Py.rstrip (s ++ ws) = Py.rstrip s.
Proof.
  intros H. unfold Py.rstrip. rewrite rev_app_distr, lstrip_blank_app; [done|].
  by apply Forall_rev.
Qed.

Lemma rstrip_cons_nonspace c s :
  Py.isspace c = false -> Py.rstrip (c :: s) = c :: Py.rstrip s.
Proof.
  intros Hc. unfold Py.rstrip. simpl rev.
  by rewrite lstrip_snoc_nonspace, rev_app_distr.
Qed.

(** What is left after [strip]: nothing, or a text between two characters
    that are not white space. *)
Lemma strip_cases s :
  Py.strip s = match Py.lstrip s with
               | [] => []
               | c :: r => c :: Py.rstrip r
               end.
Proof.
  unfold Py.strip. destruct (lstrip_split s) as (ws & _ & _ & [->|(c & r & -> & Hc)]).
  - reflexivity.
  - by apply rstrip_cons_nonspace.
Qed.

Lemma strip_blank s : blank s -> Py.strip s = [].
Proof. intros H. by rewrite strip_cases, lstrip_blank. Qed.

Lemma strip_head s c r : Py.strip s = c :: r -> Py.isspace c = false.
Proof.
  rewrite strip_cases.
  destruct (lstrip_split s) as (ws & _ & _ & [->|(c' & r' & -> & Hc)]); [done|].
  by intros [= <- _].
Qed.

Lemma rstrip_last s c : last (Py.rstrip s) = Some c -> Py.isspace c = false.
Proof.
  unfold Py.rstrip.
  destruct (lstrip_split (rev s)) as (ws & _ & _ & [->|(c' & r' & -> & Hc)]); [done|].
  simpl rev. rewrite last_snoc. by intros [= <-].
Qed.

Lemma strip_last s c : last (Py.strip s) = Some c -> Py.isspace c = false.
Proof. unfold Py.strip. apply rstrip_last. Qed.

(** White space around a text does not count. *)
Lemma strip_pad a s b : blank a -> blank b -> Py.strip (a ++ s ++ b) = Py.strip s.
Proof.
  intros Ha Hb. rewrite !strip_cases, (lstrip_blank_app a) by done.
  destruct (lstrip_split s) as (ws & Hws & Hs & [E|(c & r & E & Hc)]).
  - rewrite E in *. rewrite app_nil_r in Hs. subst ws.
    rewrite lstrip_blank; [done|]. by apply Forall_app_2.
  - rewrite E. rewrite Hs at 1. rewrite E, <- app_assoc, lstrip_blank_app by done.
    simpl. rewrite Hc. by rewrite rstrip_blank_app.
Qed.

(** A text that neither starts nor ends with white space is left alone. *)
Lemma strip_id c s d :
  Py.isspace c = false -> Py.isspace d = false ->
  Py.strip (c :: s ++ [d]) = c :: s ++ [d].
Proof.
  intros Hc Hd. rewrite strip_cases, lstrip_cons_nonspace by done. f_equal.
  unfold Py.rstrip. rewrite rev_app_distr. cbn [rev app Py.lstrip].
  rewrite Hd. cbn [rev]. by rewrite rev_involutive.
Qed.

Lemma strip_idemp s : Py.strip (Py.strip s) = Py.strip s.
Proof.
  destruct (Py.strip s) as [|c r] eqn:E; [done|].
  pose proof (strip_head _ _ _ E) as Hc.
  destruct (decide (r = [])) as [->|Hr].
  - rewrite strip_cases. simpl. by rewrite Hc.
  - destruct (exists_last Hr) as (r' & d & ->).
    apply strip_id; [done|]. apply (strip_last s). rewrite E.
    by rewrite app_comm_cons, last_snoc.
Qed.


Lemma one_line_replace s : one_line (Py.replace 10 32 s).
Proof.
  unfold Py.replace. apply Forall_forall. intros c Hc.
  apply list_elem_of_In, in_map_iff in Hc as (c' & <- & _).
  destruct (c' =? 10) eqn:E; [done|by apply N.eqb_neq in E].
Qed.

Lemma one_line_summary_text t : one_line (summary_text t).
Proof.
  unfold summary_text.
  destruct (dict_get t "task") as [|[|c s]|z];
    try (vm_compute; by repeat constructor).
  apply Forall_strip, one_line_replace.
Qed.

Lemma one_line_uid_of i dt : one_line (uid_of i dt).
Proof.
  unfold uid_of, Py.str_of_nat.
  repeat (apply one_line_app;
          [first [apply one_line_digits | apply one_line_stamp
                 | vm_compute; by repeat constructor]|]).
  vm_compute; by repeat constructor.
Qed.

Lemma one_line_vevent tzid now_utc uid dtstart dtend summary :
  one_line tzid -> one_line now_utc -> one_line uid -> one_line dtstart ->
  one_line dtend -> one_line summary ->
  Forall one_line (vevent tzid now_utc uid dtstart dtend summary).
Proof.
  intros. unfold vevent.
  repeat (apply Forall_cons; split);
    repeat (apply one_line_app; [|try done]);
    try done; try (vm_compute; by repeat constructor).
Qed.

Lemma one_line_event_block tzid now_utc i t :
  one_line tzid -> one_line now_utc ->
  Forall one_line (event_block tzid now_utc i t).
Proof.
  intros. unfold event_block. destruct (parsed_due t); [|constructor].
  apply one_line_vevent; auto using one_line_uid_of, one_line_stamp,
    one_line_summary_text.
Qed.

Lemma one_line_blocks tzid now_utc (l : list (nat * gmap string pyval)) :
  one_line tzid -> one_line now_utc ->
  Forall one_line (flat_map (fun p => event_block tzid now_utc p.1 p.2) l).
Proof.
  intros. induction l as [|p l IH]; simpl; [constructor|].
  apply Forall_app_2; [by apply one_line_event_block|done].
Qed.

(** The lines of the document of a list of tasks. *)
Lemma to_ics_lines {World} (clk : World -> datetime * World) tasks tzid w :
  Forall TaskItem tasks -> one_line tzid ->
  exists doc,
    (to_ics clk tasks tzid w).1 = Ok doc
    /\ Py.split_lf doc =
       calendar_header
       ++ flat_map (fun p => event_block tzid
                               (strftime (clk w).1 "%Y%m%dT%H%M%SZ") p.1 p.2)
                   (enumerate tasks)
       ++ [Py.lit "END:VCALENDAR"].
Proof.
  intros Htasks Htz. unfold to_ics. destruct (clk w) as [now w']. cbn [fst].
  rewrite to_ics_loop_TaskItems by done.
  eexists. split; [reflexivity|].
  rewrite split_lf_join.
  - by rewrite <- app_assoc.
  - intros H%(f_equal length). rewrite !length_app in H. simpl in H. lia.
  - apply Forall_app_2; [apply Forall_app_2|].
    + vm_compute. by repeat constructor.
    + apply one_line_blocks; [done|apply one_line_now_utc].
    + vm_compute. by repeat constructor.
Qed.

(** *** Counting the events *)

Lemma count_line_app x a b :
  count_line x (a ++ b) = (count_line x a + count_line x b)%nat.
Proof. unfold count_line. by rewrite List.filter_app, length_app. Qed.

Lemma count_begin_event_block tzid now_utc i t :
  count_line (Py.lit "BEGIN:VEVENT") (event_block tzid now_utc i t) =
  match parsed_due t with Some _ => 1%nat | None => 0%nat end.
Proof.
  unfold event_block. destruct (parsed_due t) as [dt|]; [|reflexivity].
  unfold count_line, vevent. eval_lits. simpl.
  repeat (case_bool_decide; try discriminate). reflexivity.
Qed.

Lemma count_begin_blocks tzid now_utc tasks : forall i,
  count_line (Py.lit "BEGIN:VEVENT")
    (flat_map (fun p => event_block tzid now_utc p.1 p.2) (enumerate_from i tasks))
  = length (List.filter (fun t => bool_decide (is_Some (parsed_due t))) tasks).
Proof.
  induction tasks as [|t tasks IH]; intros i; [reflexivity|].
  cbn [flat_map enumerate_from List.filter fst snd].
  rewrite count_line_app, count_begin_event_block, IH.
  destruct (parsed_due t) as [dt|].
  - rewrite bool_decide_true by eauto. reflexivity.
  - rewrite bool_decide_false by (by intros [? ?]). reflexivity.
Qed.

(** *** Decimal numerals are injective *)

Lemma digits_of_uint_inj d : forall d',
  Py.digits_of_uint d = Py.digits_of_uint d' -> d = d'.
Proof.
  induction d as [|d IH|d IH|d IH|d IH|d IH|d IH|d IH|d IH|d IH|d IH];
    intros [|d'|d'|d'|d'|d'|d'|d'|d'|d'|d']; simpl; intros H;
    first [reflexivity | discriminate H
          | injection H as H; f_equal; by apply IH].
Qed.

Lemma str_of_nat_inj i j : Py.str_of_nat i = Py.str_of_nat j -> i = j.
Proof.
  intros H. apply digits_of_uint_inj in H. by apply DecimalNat.Unsigned.to_uint_inj.
Qed.

(** Two texts cut at a separator that the first parts do not contain. *)
Lemma app_sep_inj (P : N -> Prop) (sep : N) (l1 l2 a b : list N) :
  ~ P sep -> Forall P l1 -> Forall P l2 ->
  l1 ++ sep :: a = l2 ++ sep :: b -> l1 = l2.
Proof.
  intros Hsep H1. revert l2.
  induction H1 as [|c l1 Hc _ IH]; intros l2 H2 Heq.
  - destruct H2 as [|c' l2 Hc' _]; [done|]. simpl in Heq.
    injection Heq as <- _. done.
  - destruct H2 as [|c' l2 Hc' H2]; simpl in Heq.
    + injection Heq as -> _. done.
    + injection Heq as <- Heq. f_equal. by apply IH.
Qed.

Lemma uid_of_inj i j dt dt' : uid_of i dt = uid_of j dt' -> i = j.
Proof.
  unfold uid_of. intros H. apply app_inv_head in H.
  apply str_of_nat_inj.
  change (Py.lit "-" ++ ?x) with (45 :: x) in H.
  eapply (app_sep_inj (fun c => 48 <= c <= 57)); [|apply digits_of_uint_range..|exact H].
  lia.
Qed.

(** *** The UID lines of a document *)

Lemma uid_lines_event_block tzid now_utc i t :
  List.filter (fun l => Py.startswith l (Py.lit "UID:")) (event_block tzid now_utc i t)
  = match parsed_due t with
    | Some dt => [Py.lit "UID:" ++ uid_of i dt]
    | None => []
    end.
Proof.
  unfold event_block. destruct (parsed_due t) as [dt|]; reflexivity.
Qed.

Lemma uid_lines_blocks tzid now_utc tasks : forall i,
  List.filter (fun l => Py.startswith l (Py.lit "UID:"))
    (flat_map (fun p => event_block tzid now_utc p.1 p.2) (enumerate_from i tasks))
  = map (fun p => Py.lit "UID:" ++ uid_of p.1 p.2)
        (omap (fun p => pair p.1 <$> parsed_due p.2) (enumerate_from i tasks)).
Proof.
  induction tasks as [|t tasks IH]; intros i; [reflexivity|].
  cbn [flat_map enumerate_from omap fst snd].
  rewrite List.filter_app, uid_lines_event_block, IH.
  destruct (parsed_due t) eqn:E; cbn [omap list_omap fst snd];
    rewrite E; reflexivity.
Qed.

Lemma dated_indices tasks : forall i,
  map fst (omap (fun p => pair p.1 <$> parsed_due p.2) (enumerate_from i tasks))
  `sublist_of` seq i (length tasks).
Proof.
  induction tasks as [|t tasks IH]; intros i; [constructor|].
  cbn [enumerate_from omap list_omap fst snd length seq].
  destruct (parsed_due t); simpl.
  - apply sublist_skip, IH.
  - apply sublist_cons, IH.
Qed.

Lemma length_dated tasks : forall i,
  length (omap (fun p => pair p.1 <$> parsed_due p.2) (enumerate_from i tasks))
  = length (List.filter (fun t => bool_decide (is_Some (parsed_due t))) tasks).
Proof.
  induction tasks as [|t tasks IH]; intros i; [reflexivity|].
  cbn [enumerate_from omap list_omap fst snd List.filter].
  destruct (parsed_due t) as [dt|].
  - rewrite bool_decide_true by eauto. simpl. by rewrite IH.
  - rewrite bool_decide_false by (by intros [? ?]). apply IH.
Qed.

Lemma NoDup_map_through {A B C} (f : A -> B) (g : A -> C) (l : list A) :
  (forall x y, f x = f y -> g x = g y) -> NoDup (map g l) -> NoDup (map f l).
Proof.
  intros Hfg. induction l as [|x l IH]; simpl; [constructor|].
  rewrite !NoDup_cons. intros [Hx Hl]. split; [|by apply IH].
  intros Hin. apply Hx.
  apply list_elem_of_fmap in Hin as (y & Hy & Hin).
  apply list_elem_of_fmap. exists y. split; [by apply Hfg|done].
Qed.

Lemma NoDup_uids tasks :
  NoDup (map (fun p => Py.lit "UID:" ++ uid_of p.1 p.2) (dated tasks)).
Proof.
  apply (NoDup_map_through _ fst).
  - intros [i dt] [j dt'] H. cbn [fst snd] in *.
    apply app_inv_head in H. by apply uid_of_inj in H.
  - eapply sublist_NoDup; [apply NoDup_seq|apply (dated_indices tasks 0)].
Qed.

Lemma uid_lines_to_ics {World} (clk : World -> datetime * World) tasks tzid w :
  Forall TaskItem tasks -> one_line tzid ->
  exists doc,
    (to_ics clk tasks tzid w).1 = Ok doc
    /\ uid_lines doc = map (fun p => Py.lit "UID:" ++ uid_of p.1 p.2) (dated tasks).
Proof.
  intros Htasks Htz.
  destruct (to_ics_lines clk tasks tzid w Htasks Htz) as (doc & Hdoc & Hlines).
  exists doc. split; [done|].
  unfold uid_lines, dated, enumerate in *.
  rewrite Hlines, !List.filter_app, uid_lines_blocks.
  change (List.filter _ calendar_header) with (@nil Py.str).
  change (List.filter _ [Py.lit "END:VCALENDAR"]) with (@nil Py.str).
  by rewrite app_nil_r.
Qed.

(** *** Skipping *)

Lemma parsed_due_None_skip tzid now_utc i t lines :
  parsed_due t = None -> optional_str (dict_get t "due_local") ->
  to_ics_body tzid now_utc i t lines = Ok lines.
Proof.
  intros Hp Hdue. rewrite to_ics_body_eq, Hp.
  by destruct Hdue as [->|[s ->]].
Qed.

Lemma parsed_due_lenient t due dt :
  dict_get t "due_local" = PyStr due -> parsed_due t = Some dt ->
  reads_as (normalized due) dt.
Proof.
  unfold parsed_due. intros ->.
  destruct (_strptime _ _) eqn:E; [|discriminate].
  intros [= <-]. by apply strptime_sound.
Qed.

(** The tasks that get an event are exactly those whose deadline has the
    form that [strptime] reads. *)
Lemma parsed_due_reads_as t dt :
  parsed_due t = Some dt <->
  exists due, dict_get t "due_local" = PyStr due /\ reads_as (normalized due) dt.
Proof.
  unfold parsed_due. split.
  - destruct (dict_get t "due_local") as [|due|z]; try discriminate.
    destruct (_strptime _ _) eqn:E; [|discriminate].
    intros [= <-]. exists due. split; [done|]. by apply strptime_sound.
  - intros (due & -> & Hr). by rewrite (strptime_complete _ _ Hr).
Qed.

Lemma lenient_due_emitted tzid now_utc i t due dt lines :
  TaskItem t -> dict_get t "due_local" = PyStr due ->
  reads_as (normalized due) dt ->
  to_ics_body tzid now_utc i t lines
  = Ok (lines ++ vevent tzid now_utc (uid_of i dt) (stamp dt) (stamp dt)
                   (summary_text t)).
Proof.
  intros Ht Hdue Hr. rewrite to_ics_body_TaskItem by done.
  unfold event_block.
  replace (parsed_due t) with (Some dt); [done|].
  symmetry. apply parsed_due_reads_as. eauto.
Qed.

Lemma caseless_lower s word :
  Forall (fun k => 97 <= k <= 122) word -> caseless_eq s word ->
  Py.lower s = word.
Proof.
  intros Hw Hs. induction Hs as [|c k s word Hck _ IH]; [reflexivity|].
  apply Forall_cons in Hw as [Hk Hw].
  unfold Py.lower in *. simpl. rewrite IH by done. unfold Py.tolower.
  destruct Hck as [->|<-].
  - destruct (_ && _) eqn:E1; [bool_to_prop; lia|].
    destruct (k =? 304) eqn:E2; [bool_to_prop; lia|].
    destruct (k =? 8490) eqn:E3; [bool_to_prop; lia|]. reflexivity.
  - destruct (_ && _) eqn:E1; [reflexivity|bool_to_prop; lia].
Qed.

(** Against C1 as it is written: "2025-3-10 9:00" has a month and an hour
    of one digit, so it is outside the pattern read strictly, and yet the
    loop emits its event. *)
Lemma one_digit_month_and_hour_emitted :
  strict_pattern (normalized (Py.lit "2025-3-10 9:00")) = false
  /\ to_ics_body default_tzid (Py.lit "20261104T000000Z") 0 short_task
       calendar_header
     = Ok (calendar_header ++
           [ Py.lit "BEGIN:VEVENT";
             Py.lit "UID:notice2do-0-20250310T090000@local";
             Py.lit "DTSTAMP:20261104T000000Z";
             Py.lit "DTSTART;TZID=Asia/Seoul:20250310T090000";
             Py.lit "DTEND;TZID=Asia/Seoul:20250310T090000";
             Py.lit "SUMMARY:Submit report";
             Py.lit "END:VEVENT" ]).
Proof. split; vm_compute; reflexivity. Qed.

(** C1 (amended): a task whose [due_local], trimmed and with every "T"
    rewritten to a space, is not of the form that [strptime] reads (four
    digits of year, "-", month 1-12 in one or two digits, "-", day 1-31 in
    one or two digits, white space, hour 0-23 in one or two digits, ":",
    minute 0-59 in one or two digits, the date being on the calendar) is
    passed over: the turn of the loop returns the lines unchanged, without
    an exception, and the document is the one of a task without deadline. *)
Theorem due_outside_pattern_skipped {World} (clk : World -> datetime * World)
    tzid t due :
  dict_get t "due_local" = PyStr due ->
  ~ lenient_pattern (normalized due) ->
  (forall now_utc i lines, to_ics_body tzid now_utc i t lines = Ok lines)
  /\ (forall pre post w,
        to_ics clk (pre ++ t :: post) tzid w
        = to_ics clk (pre ++ ∅ :: post) tzid w).
Proof.
  intros Hdue Hno.
  assert (forall now_utc i lines, to_ics_body tzid now_utc i t lines = Ok lines)
    as Hskip.
  { intros. apply parsed_due_None_skip; [|rewrite Hdue; right; eauto].
    destruct (parsed_due t) as [dt|] eqn:E; [|done].
    exfalso. apply Hno. exists dt. by apply parsed_due_lenient with t. }
  split; [done|]. intros. by apply to_ics_skip.
Qed.

(** The fifth character of a text of the form is "-". *)
Lemma slash_not_lenient :
  ~ lenient_pattern (normalized (Py.lit "2025/03/10 09:00")).
Proof.
  intros (dt & Y & m & d & W & H & M & Hs & HY & _).
  destruct Y as [|a [|b [|c [|e [|]]]]]; try discriminate HY.
  vm_compute in Hs. discriminate Hs.
Qed.

Lemma due_outside_pattern_skipped_witness :
  dict_get slash_task "due_local" = PyStr (Py.lit "2025/03/10 09:00")
  /\ ~ lenient_pattern (normalized (Py.lit "2025/03/10 09:00"))
  /\ to_ics_body default_tzid [] 0 slash_task calendar_header = Ok calendar_header.
Proof.
  split; [reflexivity|]. split; [exact slash_not_lenient|].
  apply (due_outside_pattern_skipped fixed_clock default_tzid slash_task
           (Py.lit "2025/03/10 09:00"));
    [reflexivity|exact slash_not_lenient].
Defined.

(** C6: a task whose [due_local] is absent or [None], or a [str] that
    after trimming is empty or is "null" or "none" up to the case of its
    letters, is passed over: no line is added for it, and the document is
    the one of a task without deadline. *)
Theorem null_due_skipped {World} (clk : World -> datetime * World) tzid t :
  (t !! "due_local" = None
   \/ t !! "due_local" = Some PyNone
   \/ exists due, t !! "due_local" = Some (PyStr due)
        /\ (Py.strip due = []
            \/ caseless_eq (Py.strip due) (Py.lit "null")
            \/ caseless_eq (Py.strip due) (Py.lit "none"))) ->
  (forall now_utc i lines, to_ics_body tzid now_utc i t lines = Ok lines)
  /\ (forall pre post w,
        to_ics clk (pre ++ t :: post) tzid w
        = to_ics clk (pre ++ ∅ :: post) tzid w).
Proof.
  intros Hcase.
  assert (forall now_utc i lines, to_ics_body tzid now_utc i t lines = Ok lines)
    as Hskip.
  { intros. unfold to_ics_body, dict_get.
    destruct Hcase as [->|[->|(due & -> & Hdue)]]; [reflexivity..|]. simpl.
    rewrite bool_decide_true; [reflexivity|].
    destruct Hdue as [->|[Hc|Hc]].
    - set_solver.
    - apply caseless_lower in Hc as ->; [set_solver|].
      vm_compute. repeat constructor; discriminate.
    - apply caseless_lower in Hc as ->; [set_solver|].
      vm_compute. repeat constructor; discriminate. }
  split; [done|]. intros. by apply to_ics_skip.
Qed.

Lemma null_due_skipped_witness :
  to_ics_body default_tzid [] 0 (report_task (PyStr (Py.lit "  NuLL "))) calendar_header
  = Ok calendar_header.
Proof.
  apply (null_due_skipped fixed_clock default_tzid
           (report_task (PyStr (Py.lit "  NuLL ")))).
  right. right. exists (Py.lit "  NuLL "). split; [reflexivity|].
  right. left. vm_compute.
  repeat constructor; ((left; reflexivity) || (right; reflexivity)).
Defined.

(** C4: on tasks that hold a [str] or nothing under "task" and under
    "due_local", [to_ics] returns a document; it never raises. *)
Theorem to_ics_never_raises {World} (clk : World -> datetime * World)
    tasks tzid w :
  Forall TaskItem tasks -> exists doc, (to_ics clk tasks tzid w).1 = Ok doc.
Proof.
  intros Htasks. unfold to_ics. destruct (clk w) as [now w']. cbn [fst].
  rewrite to_ics_loop_TaskItems by done. eexists. reflexivity.
Qed.

Lemma TaskItem_report s : TaskItem (report_task (PyStr s)).
Proof. split; right; eexists; reflexivity. Qed.

Lemma to_ics_never_raises_witness :
  exists doc,
    (to_ics fixed_clock
       [report_task (PyStr (Py.lit "next week")); report_task (PyStr (Py.lit "2025-02-30 10:00"))]
       default_tzid tt).1 = Ok doc.
Proof.
  apply (to_ics_never_raises fixed_clock).
  repeat (apply Forall_cons_2; [apply TaskItem_report|]). apply Forall_nil_2.
Defined.

(** A value that is neither [None] nor a [str] does raise. *)
Example to_ics_number_raises :
  (to_ics fixed_clock [report_task (PyInt 20250310)] default_tzid tt).1
  = Raise TypeError.
Proof. vm_compute. reflexivity. Qed.

(** C3: the document of a list of tasks has "BEGIN:VCALENDAR" as its first
    line and "END:VCALENDAR" as its last, and as many lines "BEGIN:VEVENT"
    as there are tasks whose [due_local] parses.  (The zone identifier is
    one line of text, as "Asia/Seoul" is.) *)
Theorem calendar_frame_and_event_count {World} (clk : World -> datetime * World)
    tasks tzid w :
  Forall TaskItem tasks -> one_line tzid ->
  exists doc,
    (to_ics clk tasks tzid w).1 = Ok doc
    /\ head (Py.split_lf doc) = Some (Py.lit "BEGIN:VCALENDAR")
    /\ last (Py.split_lf doc) = Some (Py.lit "END:VCALENDAR")
    /\ count_line (Py.lit "BEGIN:VEVENT") (Py.split_lf doc)
       = length (List.filter (fun t => bool_decide (is_Some (parsed_due t))) tasks).
Proof.
  intros Htasks Htz.
  destruct (to_ics_lines clk tasks tzid w Htasks Htz) as (doc & Hdoc & Hlines).
  exists doc. split; [done|]. rewrite Hlines. split_and!.
  - reflexivity.
  - by rewrite app_assoc, last_snoc.
  - unfold enumerate. rewrite !count_line_app, count_begin_blocks.
    change (count_line _ calendar_header) with 0%nat.
    change (count_line _ [Py.lit "END:VCALENDAR"]) with 0%nat. lia.
Qed.

Lemma one_line_default_tzid : one_line default_tzid.
Proof. vm_compute. repeat constructor; discriminate. Qed.

Lemma calendar_frame_and_event_count_witness :
  exists doc,
    (to_ics fixed_clock
       [report_task (PyStr (Py.lit "2025-03-10T09:00")); report_task PyNone;
        report_task (PyStr (Py.lit "2025-03-10 09:00"))]
       default_tzid tt).1 = Ok doc
    /\ head (Py.split_lf doc) = Some (Py.lit "BEGIN:VCALENDAR")
    /\ last (Py.split_lf doc) = Some (Py.lit "END:VCALENDAR")
    /\ count_line (Py.lit "BEGIN:VEVENT") (Py.split_lf doc) = 2%nat.
Proof.
  apply (calendar_frame_and_event_count fixed_clock
           [report_task (PyStr (Py.lit "2025-03-10T09:00")); report_task PyNone;
            report_task (PyStr (Py.lit "2025-03-10 09:00"))] default_tzid tt).
  - apply Forall_cons_2; [apply TaskItem_report|].
    apply Forall_cons_2; [|apply Forall_cons_2; [apply TaskItem_report|apply Forall_nil_2]].
    split; [right; eexists; reflexivity|left; reflexivity].
  - exact one_line_default_tzid.
Defined.







(** C8: the UID lines of a document are those of the dated tasks, each
    made of the position of its task and of its start stamp, one per event,
    and no two of them are equal. *)
Theorem uid_values_distinct {World} (clk : World -> datetime * World)
    tasks tzid w :
  Forall TaskItem tasks -> one_line tzid ->
  exists doc,
    (to_ics clk tasks tzid w).1 = Ok doc
    /\ uid_lines doc = map (fun p => Py.lit "UID:" ++ uid_of p.1 p.2) (dated tasks)
    /\ length (uid_lines doc)
       = length (List.filter (fun t => bool_decide (is_Some (parsed_due t))) tasks)
    /\ NoDup (uid_lines doc).
Proof.
  intros Htasks Htz.
  destruct (uid_lines_to_ics clk tasks tzid w Htasks Htz) as (doc & Hdoc & Huid).
  exists doc. rewrite Huid. split_and!; [done..| |apply NoDup_uids].
  rewrite length_map. apply length_dated.
Qed.

Lemma uid_values_distinct_witness :
  exists doc,
    (to_ics fixed_clock
       [report_task (PyStr (Py.lit "2025-03-10T09:00"));
        report_task (PyStr (Py.lit "2025-03-10T09:00"))]
       default_tzid tt).1 = Ok doc
    /\ uid_lines doc = [Py.lit "UID:notice2do-0-20250310T090000@local";
                        Py.lit "UID:notice2do-1-20250310T090000@local"]
    /\ length (uid_lines doc) = 2%nat
    /\ NoDup (uid_lines doc).
Proof.
  apply (uid_values_distinct fixed_clock
           [report_task (PyStr (Py.lit "2025-03-10T09:00"));
            report_task (PyStr (Py.lit "2025-03-10T09:00"))] default_tzid tt).
  - repeat (apply Forall_cons_2; [apply TaskItem_report|]). apply Forall_nil_2.
  - exact one_line_default_tzid.
Defined.

(** C9: two runs that read the same instant from their clocks, on the same
    tasks and zone identifier, return the same document, whatever else
    differs between the two worlds. *)
Theorem to_ics_deterministic {World World'}
    (clk : World -> datetime * World) (clk' : World' -> datetime * World')
    tasks tzid w w' :
  (clk w).1 = (clk' w').1 ->
  (to_ics clk tasks tzid w).1 = (to_ics clk' tasks tzid w').1.
Proof.
  unfold to_ics. destruct (clk w) as [now w1], (clk' w') as [now' w1'].
  cbn [fst]. by intros ->.
Qed.

Lemma to_ics_deterministic_witness :
  (to_ics ticking_clock [report_task (PyStr (Py.lit "2025-03-10T09:00"))]
     default_tzid 43200).1
  = (to_ics noon_clock [report_task (PyStr (Py.lit "2025-03-10T09:00"))]
       default_tzid tt).1.
Proof.
  apply (to_ics_deterministic ticking_clock noon_clock). reflexivity.
Defined.

(** *** The credential checks *)

Lemma elem_of_enumerate_from {A} (xs : list A) : forall j i x,
  (i, x) ∈ enumerate_from j xs -> (j <= i)%nat /\ xs !! (i - j)%nat = Some x.
Proof.
  induction xs as [|y xs IH]; intros j i x; simpl.
  - by intros ?%elem_of_nil.
  - rewrite elem_of_cons. intros [[= -> ->]|Hin].
    + by rewrite Nat.sub_diag.
    + apply IH in Hin as [Hle Hx]. split; [lia|].
      by replace (i - j)%nat with (S (i - S j)) by lia.
Qed.

Lemma elem_of_bad_chars api_key i c :
  (i, c) ∈ bad_chars api_key -> api_key !! i = Some c /\ 127 < c.
Proof.
  unfold bad_chars, enumerate. intros Hin.
  apply list_elem_of_In, filter_In in Hin as [Hin Hc].
  apply list_elem_of_In, elem_of_enumerate_from in Hin as [_ Hx].
  rewrite Nat.sub_0_r in Hx. split; [done|]. by apply N.ltb_lt in Hc.
Qed.

Lemma bad_chars_from_nil api_key : forall j,
  List.filter (fun p : nat * N => 127 <? p.2) (enumerate_from j api_key) = [] <->
  Forall (fun c => c <= 127) api_key.
Proof.
  induction api_key as [|c k IH]; intros j; simpl; [done|].
  rewrite Forall_cons. destruct (127 <? c) eqn:E.
  - apply N.ltb_lt in E. split; [discriminate|lia].
  - apply N.ltb_ge in E. rewrite IH. tauto.
Qed.

Lemma bad_chars_nil api_key :
  bad_chars api_key = [] <-> Forall (fun c => c <= 127) api_key.
Proof. apply bad_chars_from_nil. Qed.

Lemma bad_chars_Exists api_key :
  Exists (fun c => 127 < c) api_key -> bad_chars api_key <> [].
Proof.
  intros Hex Hnil. apply bad_chars_nil in Hnil.
  apply Exists_exists in Hex as (c & Hin & Hc).
  rewrite Forall_forall in Hnil. specialize (Hnil c Hin). lia.
Qed.

Lemma call_ai_stored {Net Json}
    (responses_create : request -> Net -> result Py.str * Net)
    (json_loads : Py.str -> result Json) secret raw_text net :
  call_ai responses_create json_loads (stored secret) raw_text net
  = call_ai responses_create json_loads (Ok (PyStr (default [] secret))) raw_text net.
Proof. by destruct secret as [[|c k]|]. Qed.

Section Checks.
Context {Net Json : Type}.
Variable responses_create : request -> Net -> result Py.str * Net.
Variable json_loads : Py.str -> result Json.

(** [call_ai] on a [str]: the checks on the trimmed text, then the client. *)
Lemma call_ai_str key raw_text net :
  call_ai responses_create json_loads (Ok (PyStr key)) raw_text net
  = if bool_decide (Py.strip key = []) then
      (Raise (RuntimeError msg_missing), net)
    else if negb (bool_decide (bad_chars (Py.strip key) = [])) then
      (Raise (RuntimeError (msg_non_ascii (take 10 (bad_chars (Py.strip key))))),
       net)
    else if negb (Py.startswith (Py.strip key) (Py.lit "sk-")) then
      (Raise (RuntimeError msg_prefix), net)
    else
      ((responses_create (request_for (Py.strip key) raw_text) net).1
         ≫= json_loads,
       (responses_create (request_for (Py.strip key) raw_text) net).2).
Proof.
  unfold call_ai, request_for.
  assert (py_or (PyStr key) (PyStr []) = PyStr key) as -> by by destruct key.
  cbv zeta.
  destruct (bool_decide _); [done|]. destruct (negb _); [done|].
  destruct (negb _); [done|]. by destruct (responses_create _ _).
Qed.

Lemma call_ai_missing secret raw_text sent :
  Py.strip (default [] secret) = [] ->
  call_ai responses_create json_loads (stored secret) raw_text sent
  = (Raise (RuntimeError msg_missing), sent).
Proof. rewrite call_ai_stored, call_ai_str. intros ->. reflexivity. Qed.

Lemma call_ai_non_ascii secret raw_text sent :
  bad_chars (Py.strip (default [] secret)) <> [] ->
  call_ai responses_create json_loads (stored secret) raw_text sent
  = (Raise (RuntimeError
              (msg_non_ascii (take 10 (bad_chars (Py.strip (default [] secret)))))),
     sent).
Proof.
  rewrite call_ai_stored, call_ai_str. intros Hbad.
  rewrite bool_decide_false.
  - by rewrite bool_decide_false.
  - intros E. by rewrite E in Hbad.
Qed.

Lemma call_ai_prefix secret raw_text sent :
  Py.strip (default [] secret) <> [] ->
  bad_chars (Py.strip (default [] secret)) = [] ->
  Py.startswith (Py.strip (default [] secret)) (Py.lit "sk-") = false ->
  call_ai responses_create json_loads (stored secret) raw_text sent
  = (Raise (RuntimeError msg_prefix), sent).
Proof.
  rewrite call_ai_stored, call_ai_str. intros Hne Hbad Hpre.
  rewrite bool_decide_false by done. rewrite Hbad, Hpre. reflexivity.
Qed.
End Checks.

Lemma msg_non_ascii_neq shown :
  msg_non_ascii shown <> msg_missing /\ msg_non_ascii shown <> msg_prefix.
Proof. split; intros H; vm_compute in H; discriminate H. Qed.

(** C2 (amended): the three checks look at the trimmed credential, in this
    order: empty, then a code point above 127, then the prefix "sk-".  Each
    failure raises [RuntimeError] (the ConfigError of the specification)
    with its own message and leaves the network as it was: the client is
    not called. *)
Theorem credential_checks {Net Json}
    (responses_create : request -> Net -> result Py.str * Net)
    (json_loads : Py.str -> result Json) secret raw_text sent :
  let api_key := Py.strip (default [] secret) in
  let run := call_ai responses_create json_loads (stored secret) raw_text sent in
  (api_key = [] -> run = (Raise (RuntimeError msg_missing), sent))
  /\ (api_key <> [] -> Exists (fun c => 127 < c) api_key ->
      run = (Raise (RuntimeError (msg_non_ascii (take 10 (bad_chars api_key)))),
             sent))
  /\ (api_key <> [] -> Forall (fun c => c <= 127) api_key ->
      Py.startswith api_key (Py.lit "sk-") = false ->
      run = (Raise (RuntimeError msg_prefix), sent))
  /\ (api_key = [] \/ Exists (fun c => 127 < c) api_key
      \/ Py.startswith api_key (Py.lit "sk-") = false ->
      exists msg, run = (Raise (RuntimeError msg), sent))
  /\ msg_missing <> msg_prefix
  /\ (forall shown, msg_non_ascii shown <> msg_missing
                    /\ msg_non_ascii shown <> msg_prefix).
Proof.
  intros api_key run. subst run.
  assert (api_key = [] ->
          call_ai responses_create json_loads (stored secret) raw_text sent
          = (Raise (RuntimeError msg_missing), sent)) as H1
    by apply call_ai_missing.
  assert (Exists (fun c => 127 < c) api_key ->
          call_ai responses_create json_loads (stored secret) raw_text sent
          = (Raise (RuntimeError (msg_non_ascii (take 10 (bad_chars api_key)))),
             sent)) as H2
    by (intros; by apply call_ai_non_ascii, bad_chars_Exists).
  assert (api_key <> [] -> Forall (fun c => c <= 127) api_key ->
          Py.startswith api_key (Py.lit "sk-") = false ->
          call_ai responses_create json_loads (stored secret) raw_text sent
          = (Raise (RuntimeError msg_prefix), sent)) as H3
    by (intros; by apply call_ai_prefix; [|apply bad_chars_nil|]).
  split_and!; [exact H1|intros _; exact H2|exact H3| | |].
  - intros [He|[Hx|Hp]].
    + eexists. exact (H1 He).
    + eexists. exact (H2 Hx).
    + destruct (decide (api_key = [])) as [He|Hne]; [eexists; exact (H1 He)|].
      destruct (decide (bad_chars api_key = [])) as [Hb|Hb].
      * apply bad_chars_nil in Hb. eexists. exact (H3 Hne Hb Hp).
      * eexists. apply call_ai_non_ascii. exact Hb.
  - intros H. vm_compute in H. discriminate H.
  - apply msg_non_ascii_neq.
Qed.

Lemma credential_checks_witness :
  call_ai echo_backend (fun s => Ok s) (stored (Some (Py.lit "  "))) (Py.lit "notice") []
  = (Raise (RuntimeError msg_missing), [])
  /\ call_ai echo_backend (fun s => Ok s)
       (stored (Some (Py.lit "pk-" ++ [8203] ++ Py.lit "abc"))) (Py.lit "notice") []
     = (Raise (RuntimeError (msg_non_ascii [(3%nat, 8203)])), [])
  /\ call_ai echo_backend (fun s => Ok s) (stored (Some (Py.lit "pk-abc")))
       (Py.lit "notice") []
     = (Raise (RuntimeError msg_prefix), []).
Proof.
  split_and!.
  - destruct (credential_checks echo_backend (fun s => Ok s) (Some (Py.lit "  "))
                (Py.lit "notice") []) as (H & _).
    vm_compute in H |- *. exact (H eq_refl).
  - destruct (credential_checks echo_backend (fun s => Ok s)
                (Some (Py.lit "pk-" ++ [8203] ++ Py.lit "abc")) (Py.lit "notice") [])
      as (_ & H & _).
    vm_compute in H |- *. apply H; [discriminate|].
    do 3 apply Exists_cons_tl. apply Exists_cons_hd. reflexivity.
  - destruct (credential_checks echo_backend (fun s => Ok s) (Some (Py.lit "pk-abc"))
                (Py.lit "notice") []) as (_ & _ & H & _).
    vm_compute in H |- *. apply H; [discriminate| |reflexivity].
    repeat constructor; discriminate.
Defined.

(** *** What the message about code points outside ASCII shows *)

Lemma enumerate_from_zip {A} (xs : list A) : forall j,
  enumerate_from j xs = zip (seq j (length xs)) xs.
Proof. induction xs as [|x xs IH]; intros j; simpl; [done|]. by rewrite IH. Qed.

Lemma Forall_join (P : N -> Prop) sep ls :
  Forall P sep -> Forall (Forall P) ls -> Forall P (Py.join sep ls).
Proof.
  intros Hsep. induction 1 as [|l ls Hl Hls IH]; [constructor|].
  destruct ls as [|l' ls]; [exact Hl|].
  change (Py.join sep (l :: l' :: ls)) with (l ++ sep ++ Py.join sep (l' :: ls)).
  apply Forall_app. split; [exact Hl|]. apply Forall_app. by split.
Qed.

Lemma digits_report d :
  Forall (fun c => ascii_digit c = true \/ c ∈ Py.lit "()[], ")
         (Py.digits_of_uint d).
Proof.
  eapply Forall_impl; [apply digits_of_uint_range|]. simpl. intros c Hc. left.
  unfold ascii_digit. apply andb_true_intro. split; apply N.leb_le; lia.
Qed.

Lemma punct_report s :
  forallb (fun c => bool_decide (c ∈ Py.lit "()[], ")) s = true ->
  Forall (fun c => ascii_digit c = true \/ c ∈ Py.lit "()[], ") s.
Proof.
  intros H. apply Forall_forall. intros c Hc. right.
  rewrite forallb_forall in H. specialize (H c (proj1 (list_elem_of_In _ _) Hc)).
  by apply bool_decide_eq_true in H.
Qed.

Lemma report_chars (shown : list (nat * N)) :
  Forall (fun c => ascii_digit c = true \/ c ∈ Py.lit "()[], ")
    (Py.lit "["
     ++ Py.join (Py.lit ", ")
          (map (fun p : nat * N =>
                  Py.lit "(" ++ Py.str_of_nat p.1 ++ Py.lit ", "
                  ++ Py.str_of_N p.2 ++ Py.lit ")") shown)
     ++ Py.lit "]").
Proof.
  apply Forall_app. split; [by apply punct_report|].
  apply Forall_app. split; [|by apply punct_report].
  apply Forall_join; [by apply punct_report|].
  apply Forall_map, Forall_forall. intros [i c] _. cbn [fst snd].
  repeat (apply Forall_app; split);
    first [apply digits_report | by apply punct_report].
Qed.

Lemma msg_non_ascii_text shown :
  msg_non_ascii shown
  = Py.lit "OPENAI_API_KEY에 비ASCII 문자가 섞여 있습니다. 위치/코드: "
    ++ (Py.lit "["
        ++ Py.join (Py.lit ", ")
             (map (fun p : nat * N =>
                     Py.lit "(" ++ Py.str_of_nat p.1 ++ Py.lit ", "
                     ++ Py.str_of_N p.2 ++ Py.lit ")") shown)
        ++ Py.lit "]")
    ++ Py.lit " (예: 65279는 BOM, 8203은 제로폭 공백)".
Proof.
  unfold msg_non_ascii. apply (f_equal (app _)).
  unfold repr_pairs. apply (f_equal (app _)). vm_compute. reflexivity.
Qed.

(** C10: the message about code points outside ASCII is the fixed text
    around the report.  The report is the Python list of the first ten
    offending (position, code point) pairs at most, in the order of the
    credential, each pair written as two decimal numbers; it is made of
    ASCII digits, brackets, parentheses, commas and spaces only, so no
    offending character is in it, and the message depends on the credential
    through these pairs only. *)
Theorem non_ascii_report {Net Json}
    (responses_create : request -> Net -> result Py.str * Net)
    (json_loads : Py.str -> result Json) secret raw_text sent :
  let api_key := Py.strip (default [] secret) in
  Exists (fun c => 127 < c) api_key ->
  exists shown report,
    call_ai responses_create json_loads (stored secret) raw_text sent
    = (Raise (RuntimeError
                (Py.lit "OPENAI_API_KEY에 비ASCII 문자가 섞여 있습니다. 위치/코드: "
                 ++ report
                 ++ Py.lit " (예: 65279는 BOM, 8203은 제로폭 공백)")),
       sent)
    /\ report
       = Py.lit "["
         ++ Py.join (Py.lit ", ")
              (map (fun p : nat * N =>
                      Py.lit "(" ++ Py.str_of_nat p.1 ++ Py.lit ", "
                      ++ Py.str_of_N p.2 ++ Py.lit ")") shown)
         ++ Py.lit "]"
    /\ shown = take 10 (bad_chars api_key)
    /\ shown = take 10 (List.filter (fun p : nat * N => 127 <? p.2)
                          (zip (seq 0 (length api_key)) api_key))
    /\ (1 <= length shown <= 10)%nat
    /\ (forall i c, (i, c) ∈ shown -> api_key !! i = Some c /\ 127 < c)
    /\ Forall (fun c => ascii_digit c = true \/ c ∈ Py.lit "()[], ") report
    /\ Forall (fun c => c <= 127) report
    /\ (forall secret' raw_text' sent',
          take 10 (bad_chars (Py.strip (default [] secret'))) = shown ->
          (call_ai responses_create json_loads (stored secret') raw_text' sent').1
          = (call_ai responses_create json_loads (stored secret) raw_text sent).1).
Proof.
  intros api_key Hex. pose proof (bad_chars_Exists _ Hex) as Hbad.
  exists (take 10 (bad_chars api_key)). eexists.
  split; [|split; [reflexivity|]].
  { rewrite call_ai_non_ascii by done. by rewrite msg_non_ascii_text. }
  split_and!.
  - reflexivity.
  - unfold bad_chars, enumerate. by rewrite enumerate_from_zip.
  - rewrite length_take. destruct (bad_chars api_key); [done|]. simpl. lia.
  - rewrite length_take. lia.
  - intros i c Hin. apply elem_of_bad_chars.
    apply list_elem_of_lookup in Hin as [n Hn].
    apply lookup_take_Some in Hn as [Hn _].
    apply list_elem_of_lookup. by exists n.
  - apply report_chars.
  - eapply Forall_impl; [apply report_chars|]. simpl. intros c [Hc|Hc].
    + unfold ascii_digit in Hc. apply andb_prop in Hc as [_ Hc].
      apply N.leb_le in Hc. lia.
    + apply (Forall_forall (fun c => c <= 127) (Py.lit "()[], ")); [|exact Hc].
      vm_compute. repeat constructor; discriminate.
  - intros secret' raw' sent' Hsame.
    rewrite (call_ai_non_ascii _ _ secret raw_text sent) by done.
    rewrite call_ai_non_ascii; [by rewrite Hsame|].
    intros E. rewrite E in Hsame. simpl in Hsame.
    destruct (bad_chars api_key); [done|discriminate].
Qed.

Lemma non_ascii_report_witness :
  Exists (fun c => 127 < c) (Py.strip dirty_key)
  /\ length (bad_chars (Py.strip dirty_key)) = 12%nat
  /\ call_ai echo_backend (fun s => Ok s) (stored (Some dirty_key)) (Py.lit "notice") []
     = (Raise (RuntimeError
                 (Py.lit "OPENAI_API_KEY에 비ASCII 문자가 섞여 있습니다. 위치/코드: "
                  ++ Py.lit "[(0, 65279), (6, 8203), (7, 8203), (8, 8203), (9, 8203), "
                  ++ Py.lit "(10, 8203), (11, 8203), (12, 8203), (13, 8203), (14, 8203)]"
                  ++ Py.lit " (예: 65279는 BOM, 8203은 제로폭 공백)")),
        []).
Proof.
  assert (Exists (fun c => 127 < c) (Py.strip dirty_key)) as Hex.
  { vm_compute. apply Exists_cons_hd. reflexivity. }
  split; [exact Hex|]. split; [reflexivity|].
  destruct (non_ascii_report echo_backend (fun s => Ok s) (Some dirty_key)
              (Py.lit "notice") [] Hex) as (shown & report & Hrun & -> & -> & _).
  rewrite Hrun. vm_compute. reflexivity.
Defined.

(** Against C2 as it is written: this credential contains U+00A0, a code
    point above 127, and yet the checks pass and a request is sent, with
    the trimmed key. *)
Lemma trailing_nbsp_is_accepted :
  Exists (fun c => 127 < c) (Py.lit "sk-abc" ++ [160])
  /\ call_ai echo_backend (fun s => Ok s) (stored (Some (Py.lit "sk-abc" ++ [160])))
       (Py.lit "notice") []
     = (Ok (Py.lit "[원문]" ++ LF ++ Py.lit "notice" ++ LF),
        [mkreq (Py.lit "sk-abc") (Py.lit "gpt-4o-mini") system_prompt
           (Py.lit "[원문]" ++ LF ++ Py.lit "notice" ++ LF)]).
Proof.
  split.
  - vm_compute. do 6 apply Exists_cons_tl. apply Exists_cons_hd. reflexivity.
  - vm_compute. reflexivity.
Qed.

(* ===================================================================== *)
(** ** Further properties of [to_ics], [call_ai] and the script *)
(* ===================================================================== *)

(** *** Numbers of two and four digits *)

Lemma In_upto n k : n < k -> In n (map N.of_nat (seq 0 (N.to_nat k))).
Proof.
  intros H. apply in_map_iff. exists (N.to_nat n). split; [lia|].
  apply in_seq. lia.
Qed.

Lemma zfill_2 n :
  n <= 99 -> Py.zfill 2 (Py.str_of_N n) = [48 + n / 10; 48 + n mod 10].
Proof.
  intros H.
  assert (forallb (fun n => bool_decide
            (Py.zfill 2 (Py.str_of_N n) = [48 + n / 10; 48 + n mod 10]))
            (map N.of_nat (seq 0 (N.to_nat 100))) = true) as Hall by (vm_compute; reflexivity).
  rewrite forallb_forall in Hall.
  eapply bool_decide_eq_true_1, Hall, In_upto. lia.
Qed.

(** Without padding, a number below 10000 is its four digits less the
    leading zeros. *)
Lemma str_of_N_unpadded n :
  n <= 9999 ->
  Py.str_of_N n
  = unpadded [48 + n / 1000; 48 + (n / 100) mod 10; 48 + (n / 10) mod 10;
              48 + n mod 10].
Proof.
  intros H.
  assert (forallb (fun n => bool_decide
            (Py.str_of_N n
             = unpadded [48 + n / 1000; 48 + (n / 100) mod 10;
                         48 + (n / 10) mod 10; 48 + n mod 10]))
            (map N.of_nat (seq 0 (N.to_nat 10000))) = true) as Hall
    by (vm_compute; reflexivity).
  rewrite forallb_forall in Hall.
  eapply bool_decide_eq_true_1, Hall, In_upto. lia.
Qed.

Lemma str_of_N_inj n n' : Py.str_of_N n = Py.str_of_N n' -> n = n'.
Proof.
  intros H. apply digits_of_uint_inj in H. by apply DecimalN.Unsigned.to_uint_inj.
Qed.

(** The stamp of a datetime whose fields are in range: the year, then
    eleven characters, the digits of each field at a fixed place. *)
Lemma stamp_digits dt :
  month dt <= 99 -> day dt <= 99 -> hour dt <= 99 ->
  minute dt <= 99 -> second dt <= 99 ->
  stamp dt =
  Py.str_of_N (year dt)
  ++ [48 + month dt / 10; 48 + month dt mod 10;
      48 + day dt / 10; 48 + day dt mod 10; 84;
      48 + hour dt / 10; 48 + hour dt mod 10;
      48 + minute dt / 10; 48 + minute dt mod 10;
      48 + second dt / 10; 48 + second dt mod 10].
Proof.
  intros. unfold stamp. etrans; [exact (strftime_stamp dt "")|].
  rewrite !zfill_2 by done. reflexivity.
Qed.

(** *** The lines of the document *)

Lemma length_blocks tzid now_utc tasks : forall i,
  length (flat_map (fun p => event_block tzid now_utc p.1 p.2)
            (enumerate_from i tasks))
  = (7 * length (omap (fun p => pair p.1 <$> parsed_due p.2)
                   (enumerate_from i tasks)))%nat.
Proof.
  induction tasks as [|t tasks IH]; intros i; [reflexivity|].
  cbn [flat_map enumerate_from omap list_omap fst snd].
  rewrite length_app, IH. unfold event_block.
  destruct (parsed_due t); simpl; lia.
Qed.

(** X1: on tasks of the data model and a time zone name without line feed,
    the lines of the document are the four header lines, then the seven
    lines of an event for each task whose deadline parses, in the order and
    with the positions of the input, then END:VCALENDAR: five lines and
    seven more for each dated task. *)
Theorem calendar_lines {World} (clk : World -> datetime * World)
    tasks tzid w :
  Forall TaskItem tasks -> one_line tzid ->
  exists doc,
    (to_ics clk tasks tzid w).1 = Ok doc
    /\ Py.split_lf doc =
       calendar_header
       ++ flat_map (fun p => event_block tzid
                               (strftime (clk w).1 "%Y%m%dT%H%M%SZ") p.1 p.2)
                   (enumerate tasks)
       ++ [Py.lit "END:VCALENDAR"]
    /\ length (Py.split_lf doc) = (5 + 7 * length (dated tasks))%nat.
Proof.
  intros Htasks Htz.
  destruct (to_ics_lines clk tasks tzid w Htasks Htz) as (doc & Hdoc & Hlines).
  exists doc. split_and!; [done..|].
  rewrite Hlines, !length_app. unfold enumerate, dated.
  rewrite length_blocks. simpl. unfold enumerate. lia.
Qed.

Lemma calendar_lines_witness :
  exists doc,
    (to_ics fixed_clock [report_task PyNone;
                         report_task (PyStr (Py.lit "2025-3-10 9:00"))]
       default_tzid tt).1 = Ok doc
    /\ length (Py.split_lf doc) = 12%nat.
Proof.
  destruct (calendar_lines fixed_clock
              [report_task PyNone; report_task (PyStr (Py.lit "2025-3-10 9:00"))]
              default_tzid tt) as (doc & Hdoc & _ & Hlen).
  - apply Forall_cons_2; [|apply Forall_cons_2; [apply TaskItem_report|apply Forall_nil_2]].
    split; [right; eexists; reflexivity|left; reflexivity].
  - exact one_line_default_tzid.
  - exists doc. split; [exact Hdoc|exact Hlen].
Defined.

Lemma to_ics_loop_undated tzid now_utc tasks : forall i lines,
  Forall (fun t => optional_str (dict_get t "due_local") /\ parsed_due t = None)
         tasks ->
  to_ics_loop tzid now_utc i tasks lines = Ok lines.
Proof.
  induction tasks as [|t tasks IH]; intros i lines Hall; [reflexivity|].
  apply Forall_cons in Hall as [[Hdue Hp] Hall]. simpl.
  rewrite parsed_due_None_skip by done. simpl. by apply IH.
Qed.

(** X2: when no task has a deadline that parses, the document is the
    same five lines, whatever the clock, the time zone name and the
    descriptions are. *)
Theorem undated_calendar_is_bare {World} (clk : World -> datetime * World)
    tasks tzid w :
  Forall (fun t => optional_str (dict_get t "due_local") /\ parsed_due t = None)
         tasks ->
  (to_ics clk tasks tzid w).1
  = Ok (Py.lit "BEGIN:VCALENDAR" ++ LF ++ Py.lit "VERSION:2.0" ++ LF
        ++ Py.lit "PRODID:-//Notice2Do//KR//EN" ++ LF
        ++ Py.lit "CALSCALE:GREGORIAN" ++ LF ++ Py.lit "END:VCALENDAR").
Proof.
  intros Hall. unfold to_ics. destruct (clk w) as [now w']. cbn [fst].
  by rewrite to_ics_loop_undated.
Qed.

Lemma undated_calendar_is_bare_witness :
  (to_ics ticking_clock [report_task PyNone; number_task; ∅] (Py.lit "Europe/Paris") 5).1
  = (to_ics fixed_clock [] default_tzid tt).1.
Proof.
  rewrite (undated_calendar_is_bare ticking_clock
             [report_task PyNone; number_task; ∅] (Py.lit "Europe/Paris") 5).
  - symmetry. by apply (undated_calendar_is_bare fixed_clock []).
  - repeat (apply Forall_cons_2; [split; [|reflexivity]|]); [..|apply Forall_nil_2].
    + by left.
    + right. by eexists.
    + by left.
Defined.

Lemma startswith_nil s : Py.startswith s [] = true.
Proof. by destruct s. Qed.

Lemma dtstamp_event_block tzid now_utc i t :
  List.filter (fun l => Py.startswith l (Py.lit "DTSTAMP:"))
              (event_block tzid now_utc i t)
  = match parsed_due t with
    | Some _ => [Py.lit "DTSTAMP:" ++ now_utc]
    | None => []
    end.
Proof.
  unfold event_block. destruct (parsed_due t); [|reflexivity].
  unfold vevent. eval_lits. cbn [List.filter Py.startswith app N.eqb Pos.eqb andb].
  by rewrite startswith_nil.
Qed.

Lemma dtstamp_blocks tzid now_utc tasks : forall i,
  List.filter (fun l => Py.startswith l (Py.lit "DTSTAMP:"))
    (flat_map (fun p => event_block tzid now_utc p.1 p.2) (enumerate_from i tasks))
  = repeat (Py.lit "DTSTAMP:" ++ now_utc)
      (length (omap (fun p => pair p.1 <$> parsed_due p.2) (enumerate_from i tasks))).
Proof.
  induction tasks as [|t tasks IH]; intros i; [reflexivity|].
  cbn [flat_map enumerate_from omap list_omap fst snd].
  rewrite List.filter_app, dtstamp_event_block, IH.
  destruct (parsed_due t); reflexivity.
Qed.

(** X3: the clock is read once: every event of a document carries the same
    DTSTAMP line, that reading written as YYYYMMDDTHHMMSS and a Z, and there
    is one such line for each dated task. *)
Theorem dtstamp_shared {World} (clk : World -> datetime * World) tasks tzid w :
  Forall TaskItem tasks -> one_line tzid ->
  exists doc,
    (to_ics clk tasks tzid w).1 = Ok doc
    /\ List.filter (fun l => Py.startswith l (Py.lit "DTSTAMP:")) (Py.split_lf doc)
       = repeat (Py.lit "DTSTAMP:" ++ stamp (clk w).1 ++ Py.lit "Z")
                (length (dated tasks)).
Proof.
  intros Htasks Htz.
  destruct (to_ics_lines clk tasks tzid w Htasks Htz) as (doc & Hdoc & Hlines).
  exists doc. split; [done|].
  unfold enumerate, dated in *.
  rewrite Hlines, !List.filter_app, dtstamp_blocks.
  change (List.filter _ calendar_header) with (@nil Py.str).
  change (List.filter _ [Py.lit "END:VCALENDAR"]) with (@nil Py.str).
  rewrite app_nil_r. cbn [app]. f_equal. f_equal.
  unfold stamp. rewrite (strftime_stamp _ "Z").
  etrans; [|apply (f_equal (fun x => x ++ Py.lit "Z")); symmetry; exact (strftime_stamp _ "")].
  cbn [strftime]. rewrite app_nil_r, <- !app_assoc. reflexivity.
Qed.

Lemma dtstamp_shared_witness :
  exists doc,
    (to_ics noon_clock
       [report_task (PyStr (Py.lit "2025-03-10T09:00"));
        report_task (PyStr (Py.lit "2025-04-01 18:30"))]
       default_tzid tt).1 = Ok doc
    /\ List.filter (fun l => Py.startswith l (Py.lit "DTSTAMP:")) (Py.split_lf doc)
       = [Py.lit "DTSTAMP:20261104T120000Z"; Py.lit "DTSTAMP:20261104T120000Z"].
Proof.
  apply (dtstamp_shared noon_clock
           [report_task (PyStr (Py.lit "2025-03-10T09:00"));
            report_task (PyStr (Py.lit "2025-04-01 18:30"))] default_tzid tt).
  - repeat (apply Forall_cons_2; [apply TaskItem_report|]). apply Forall_nil_2.
  - exact one_line_default_tzid.
Defined.

(** X4: a number under "due_local" makes [to_ics] raise [TypeError], also
    after tasks that were encoded: [strptime] is handed something that is
    not a [str], and line 117 catches [ValueError] only. *)
Theorem numeric_due_raises {World} (clk : World -> datetime * World)
    pre t post tzid w z :
  Forall TaskItem pre -> dict_get t "due_local" = PyInt z ->
  (to_ics clk (pre ++ t :: post) tzid w).1 = Raise TypeError.
Proof.
  intros Hpre Hdue. unfold to_ics. destruct (clk w) as [now w']. cbn [fst].
  rewrite to_ics_loop_app, to_ics_loop_TaskItems by done.
  cbn [mbind result_bind to_ics_loop].
  rewrite to_ics_body_eq. unfold parsed_due. by rewrite Hdue.
Qed.

Lemma numeric_due_raises_witness :
  (to_ics fixed_clock
     [report_task (PyStr (Py.lit "2025-03-10T09:00")); report_task (PyInt 20250310);
      report_task PyNone] default_tzid tt).1 = Raise TypeError.
Proof.
  apply (numeric_due_raises fixed_clock
           [report_task (PyStr (Py.lit "2025-03-10T09:00"))]
           (report_task (PyInt 20250310)) [report_task PyNone] default_tzid tt 20250310).
  - apply Forall_cons_2; [apply TaskItem_report|apply Forall_nil_2].
  - reflexivity.
Defined.

(** X5: the description of a skipped task is never looked at.  With a
    non-zero number under "task", a turn of the loop raises [AttributeError]
    exactly when the deadline parses, and leaves the lines as they are
    otherwise. *)
Theorem description_read_for_events_only tzid now_utc i t lines z :
  dict_get t "task" = PyInt z -> z <> 0%Z ->
  optional_str (dict_get t "due_local") ->
  to_ics_body tzid now_utc i t lines
  = match parsed_due t with
    | Some _ => Raise AttributeError
    | None => Ok lines
    end.
Proof.
  intros Htask Hz Hdue. rewrite to_ics_body_eq.
  destruct (parsed_due t) as [dt|].
  - unfold summary_of, py_or. rewrite Htask. simpl.
    destruct (z =? 0)%Z eqn:E; [apply Z.eqb_eq in E; done|reflexivity].
  - by destruct Hdue as [->|[s ->]].
Qed.

Lemma description_read_for_events_only_witness :
  to_ics_body default_tzid [] 0 number_task calendar_header = Ok calendar_header
  /\ to_ics_body default_tzid [] 0 number_dated_task calendar_header
     = Raise AttributeError.
Proof.
  split.
  - apply (description_read_for_events_only default_tzid [] 0 number_task
             calendar_header 7); [reflexivity|done|right; by eexists].
  - apply (description_read_for_events_only default_tzid [] 0 number_dated_task
             calendar_header 7); [reflexivity|done|right; by eexists].
Defined.

(** X6: the text after SUMMARY: has no line feed and neither starts nor ends
    with white space; a description that is not empty but all white space
    gives an empty summary, not the placeholder; the placeholder stands in
    for every falsy description ([None], the empty [str], zero). *)
Theorem summary_shape t :
  (optional_str (dict_get t "task") ->
   exists s, summary_of t = Ok s /\ one_line s
             /\ (forall c r, s = c :: r -> Py.isspace c = false)
             /\ (forall c, last s = Some c -> Py.isspace c = false))
  /\ (forall d, dict_get t "task" = PyStr d -> d <> [] -> blank d ->
      summary_of t = Ok [])
  /\ (truthy (dict_get t "task") = false ->
      summary_of t = Ok (Py.lit "할 일")).
Proof.
  split_and!.
  - intros Ht. rewrite summary_of_optional_str by done.
    exists (summary_text t). split_and!; [done|apply one_line_summary_text|..];
      unfold summary_text; destruct (dict_get t "task") as [|[|c0 s0]|z].
    all: try (intros c r [= <- _]; reflexivity).
    all: try (intros c [= <-]; reflexivity).
    + intros c r. apply strip_head.
    + intros c. apply strip_last.
  - intros d Hd Hne Hb. unfold summary_of, py_or. rewrite Hd. simpl.
    rewrite bool_decide_false by done. simpl. f_equal.
    apply strip_blank. unfold Py.replace.
    apply Forall_forall. intros c Hc.
    apply list_elem_of_In, in_map_iff in Hc as (c' & <- & Hc').
    destruct (c' =? 10); [reflexivity|].
    unfold blank in Hb. rewrite Forall_forall in Hb.
    by apply Hb, list_elem_of_In.
  - intros Hf. unfold summary_of, py_or. by rewrite Hf.
Qed.

Lemma summary_shape_witness :
  summary_of {[ "task" := PyStr (Py.lit "  Submit report " ++ LF) ]}
  = Ok (Py.lit "Submit report")
  /\ summary_of {[ "task" := PyStr (Py.lit " " ++ LF ++ Py.lit " ") ]} = Ok []
  /\ summary_of {[ "task" := PyInt 0 ]} = Ok (Py.lit "할 일").
Proof.
  split_and!.
  - destruct (summary_shape {[ "task" := PyStr (Py.lit "  Submit report " ++ LF) ]})
      as (H & _). destruct H as (s & Hs & _); [right; by eexists|].
    rewrite Hs. vm_compute in Hs. injection Hs as <-. reflexivity.
  - destruct (summary_shape {[ "task" := PyStr (Py.lit " " ++ LF ++ Py.lit " ") ]})
      as (_ & H & _).
    apply (H (Py.lit " " ++ LF ++ Py.lit " ")); [reflexivity|discriminate|].
    vm_compute. repeat constructor.
  - destruct (summary_shape {[ "task" := PyInt 0 ]}) as (_ & _ & H).
    by apply H.
Defined.

(** X7: for a task of the data model with a [str] deadline, a turn of the
    loop appends the event of the minute that the normalized deadline reads
    as, and it appends nothing unless the normalized deadline reads as some
    minute. *)
Theorem event_for_every_lenient_due tzid now_utc i t due lines :
  TaskItem t -> dict_get t "due_local" = PyStr due ->
  (forall dt, reads_as (normalized due) dt ->
     to_ics_body tzid now_utc i t lines
     = Ok (lines ++ vevent tzid now_utc (uid_of i dt) (stamp dt) (stamp dt)
                      (summary_text t)))
  /\ (to_ics_body tzid now_utc i t lines <> Ok lines ->
      lenient_pattern (normalized due)).
Proof.
  intros Ht Hdue. split.
  - intros dt Hr. by apply lenient_due_emitted with due.
  - intros Hne. destruct (parsed_due t) as [dt|] eqn:E.
    + exists dt. by apply parsed_due_lenient with t.
    + exfalso. apply Hne. apply parsed_due_None_skip; [done|]. apply Ht.
Qed.

Lemma event_for_every_lenient_due_witness :
  to_ics_body default_tzid (Py.lit "20250101T000000Z") 0
    (report_task (PyStr (Py.lit "2025-3-10 9:00"))) []
  = Ok (vevent default_tzid (Py.lit "20250101T000000Z")
          (uid_of 0 (mkdt 2025 3 10 9 0 0 0)) (stamp (mkdt 2025 3 10 9 0 0 0))
          (stamp (mkdt 2025 3 10 9 0 0 0))
          (summary_text (report_task (PyStr (Py.lit "2025-3-10 9:00"))))).
Proof.
  destruct (event_for_every_lenient_due default_tzid (Py.lit "20250101T000000Z") 0
              (report_task (PyStr (Py.lit "2025-3-10 9:00")))
              (Py.lit "2025-3-10 9:00") []
              (TaskItem_report _) eq_refl) as (H & _).
  apply (H (mkdt 2025 3 10 9 0 0 0)).
  apply strptime_sound. vm_compute. reflexivity.
Defined.

(** The datetime that a strictly written deadline denotes. *)
Lemma strict_pattern_datetime y1 y2 y3 y4 m1 m2 d1 d2 h1 h2 n1 n2 :
  strict_pattern [y1; y2; y3; y4; 45; m1; m2; 45; d1; d2; 32; h1; h2; 58; n1; n2]
  = true ->
  reads_as [y1; y2; y3; y4; 45; m1; m2; 45; d1; d2; 32; h1; h2; 58; n1; n2]
    (mkdt (100 * two_digits y1 y2 + two_digits y3 y4) (two_digits m1 m2)
       (two_digits d1 d2) (two_digits h1 h2) (two_digits n1 n2) 0 0).
Proof.
  unfold strict_pattern.
  cbn [forallb]. intros H.
  bool_to_prop. subst.
  pose proof (days_in_month_le (100 * two_digits y1 y2 + two_digits y3 y4)
                (two_digits m1 m2)) as Hdim.
  assert (forall c, ascii_digit c = true -> 48 <= c <= 57) as Hrange.
  { intros c Hc. unfold ascii_digit in Hc. bool_to_prop. lia. }
  repeat match goal with
  | E : ascii_digit ?c = true |- _ =>
    lazymatch goal with
    | _ : 48 <= c <= 57 |- _ => fail
    | _ => pose proof (Hrange c E)
    end
  end.
  unfold two_digits in *.
  exists [y1; y2; y3; y4], [m1; m2], [d1; d2], [32], [h1; h2], [n1; n2].
  split; [reflexivity|]. split_and!.
  - simpl. rewrite !ascii_digit_isdecimal by done. reflexivity.
  - simpl. unfold Re.range.
    destruct (N.eq_dec m1 49) as [->|]; [|destruct (N.eq_dec m1 48) as [->|]; [|lia]].
    + apply orb_true_intro. left. apply andb_true_intro. split; [done|].
      apply andb_true_intro. split; apply N.leb_le; lia.
    + apply orb_true_intro. right. apply andb_true_intro. split; [done|].
      apply andb_true_intro. split; apply N.leb_le; lia.
  - simpl. unfold Re.range. rewrite (ascii_digit_isdecimal d2) by done.
    rewrite andb_true_r.
    destruct (N.eq_dec d1 51) as [->|];
      [|destruct (N.eq_dec d1 48) as [->|]].
    + replace ((48 <=? d2) && (d2 <=? 49)) with true; [done|].
      symmetry. apply andb_true_intro. split; apply N.leb_le; lia.
    + replace ((49 <=? d2) && (d2 <=? 57)) with true; [by rewrite !orb_true_r|].
      symmetry. apply andb_true_intro. split; apply N.leb_le; lia.
    + replace ((49 <=? d1) && (d1 <=? 50)) with true; [by rewrite !orb_true_r|].
      symmetry. apply andb_true_intro. split; apply N.leb_le; lia.
  - reflexivity.
  - simpl. unfold Re.range. rewrite (ascii_digit_isdecimal h2) by done.
    rewrite andb_true_r.
    destruct (N.eq_dec h1 50) as [->|].
    + replace ((48 <=? h2) && (h2 <=? 51)) with true; [done|].
      symmetry. apply andb_true_intro. split; apply N.leb_le; lia.
    + replace ((48 <=? h1) && (h1 <=? 49)) with true; [by rewrite !orb_true_r|].
      symmetry. apply andb_true_intro. split; apply N.leb_le; lia.
  - simpl. unfold Re.range. rewrite (ascii_digit_isdecimal n2) by done.
    rewrite andb_true_r. apply andb_true_intro. split; apply N.leb_le; lia.
  - eexists _, _, _, _, _.
    rewrite py_int_4, !py_int_2 by done. unfold two_digits.
    split_and!; try reflexivity; lia.
Qed.

Lemma two_digits_split a b :
  ascii_digit a = true -> ascii_digit b = true ->
  two_digits a b <= 99
  /\ 48 + two_digits a b / 10 = a /\ 48 + two_digits a b mod 10 = b.
Proof.
  unfold ascii_digit. intros Ha Hb. bool_to_prop.
  assert (two_digits a b = 10 * (a - 48) + (b - 48)) as E by reflexivity.
  pose proof (N.div_mod (two_digits a b) 10 ltac:(lia)) as D1.
  pose proof (N.mod_lt (two_digits a b) 10 ltac:(lia)) as D2.
  set (q := two_digits a b / 10) in *. set (r := two_digits a b mod 10) in *.
  set (n := two_digits a b) in *. clearbody q r n. lia.
Qed.

Lemma four_digits_split a b c d :
  ascii_digit a = true -> ascii_digit b = true ->
  ascii_digit c = true -> ascii_digit d = true ->
  let n := 100 * two_digits a b + two_digits c d in
  n <= 9999
  /\ 48 + n / 1000 = a /\ 48 + (n / 100) mod 10 = b
  /\ 48 + (n / 10) mod 10 = c /\ 48 + n mod 10 = d.
Proof.
  intros Ha Hb Hc Hd n. unfold ascii_digit in *. bool_to_prop.
  assert (n = 1000 * (a - 48) + 100 * (b - 48) + 10 * (c - 48) + (d - 48)) as E
    by (subst n; unfold two_digits; lia).
  pose proof (N.div_mod n 10 ltac:(lia)) as D1.
  pose proof (N.mod_lt n 10 ltac:(lia)) as D2.
  pose proof (N.div_mod (n / 10) 10 ltac:(lia)) as D3.
  pose proof (N.mod_lt (n / 10) 10 ltac:(lia)) as D4.
  pose proof (N.div_mod (n / 100) 10 ltac:(lia)) as D5.
  pose proof (N.mod_lt (n / 100) 10 ltac:(lia)) as D6.
  rewrite !N.Div0.div_div in *.
  change (10 * 10) with 100 in *. change (100 * 10) with 1000 in *.
  set (q1 := n / 10) in *. set (r1 := n mod 10) in *.
  set (q2 := n / 100) in *. set (r2 := q1 mod 10) in *.
  set (q3 := n / 1000) in *. set (r3 := q2 mod 10) in *.
  clearbody q1 r1 q2 r2 q3 r3 n. lia.
Qed.

(** X8: a deadline that normalizes to YYYY-MM-DD HH:MM comes back in DTSTART,
    DTEND and the UID as the year without its leading zeros followed by
    MMDDTHHMM00; from the year 1000 on that is digit for digit
    YYYYMMDDTHHMM00. *)
Theorem strict_due_round_trip tzid now_utc i t due lines
    y1 y2 y3 y4 m1 m2 d1 d2 h1 h2 n1 n2 :
  TaskItem t -> dict_get t "due_local" = PyStr due ->
  normalized due
  = [y1; y2; y3; y4; 45; m1; m2; 45; d1; d2; 32; h1; h2; 58; n1; n2] ->
  strict_pattern (normalized due) = true ->
  let start := unpadded [y1; y2; y3; y4]
               ++ [m1; m2; d1; d2; 84; h1; h2; n1; n2; 48; 48] in
  to_ics_body tzid now_utc i t lines
  = Ok (lines ++
        [ Py.lit "BEGIN:VEVENT";
          Py.lit "UID:notice2do-" ++ Py.str_of_nat i ++ Py.lit "-" ++ start
          ++ Py.lit "@local";
          Py.lit "DTSTAMP:" ++ now_utc;
          Py.lit "DTSTART;TZID=" ++ tzid ++ Py.lit ":" ++ start;
          Py.lit "DTEND;TZID=" ++ tzid ++ Py.lit ":" ++ start;
          Py.lit "SUMMARY:" ++ summary_text t;
          Py.lit "END:VEVENT" ])
  /\ (y1 <> 48 ->
      start = [y1; y2; y3; y4; m1; m2; d1; d2; 84; h1; h2; n1; n2; 48; 48]).
Proof.
  intros Ht Hdue Hn Hs start. rewrite Hn in Hs.
  pose proof (strict_pattern_datetime _ _ _ _ _ _ _ _ _ _ _ _ Hs) as Hr.
  rewrite <- Hn in Hr.
  rewrite (lenient_due_emitted _ _ _ _ _ _ _ Ht Hdue Hr).
  unfold strict_pattern in Hs. cbn [forallb] in Hs. bool_to_prop.
  destruct (four_digits_split y1 y2 y3 y4) as (? & E1 & E2 & E3 & E4); [done..|].
  destruct (two_digits_split m1 m2) as (? & E5 & E6); [done..|].
  destruct (two_digits_split d1 d2) as (? & E7 & E8); [done..|].
  destruct (two_digits_split h1 h2) as (? & E9 & E10); [done..|].
  destruct (two_digits_split n1 n2) as (? & E11 & E12); [done..|].
  split.
  - unfold uid_of. rewrite stamp_digits by (cbn [year month day hour minute second]; lia).
    cbn [year month day hour minute second].
    rewrite str_of_N_unpadded by done.
    rewrite E1, E2, E3, E4, E5, E6, E7, E8, E9, E10, E11, E12.
    unfold vevent, start.
    change (Py.lit "UID:notice2do-") with (Py.lit "UID:" ++ Py.lit "notice2do-").
    rewrite <- (app_assoc (Py.lit "UID:")). reflexivity.
  - intros Hy. unfold start. cbn [unpadded].
    apply N.eqb_neq in Hy. by rewrite Hy.
Qed.

Lemma strict_due_round_trip_witness :
  to_ics_body default_tzid (Py.lit "20261104T000000Z") 3
    (report_task (PyStr (Py.lit " 2024-02-29T23:59 "))) calendar_header
  = Ok (calendar_header ++
        [ Py.lit "BEGIN:VEVENT";
          Py.lit "UID:notice2do-3-20240229T235900@local";
          Py.lit "DTSTAMP:20261104T000000Z";
          Py.lit "DTSTART;TZID=Asia/Seoul:20240229T235900";
          Py.lit "DTEND;TZID=Asia/Seoul:20240229T235900";
          Py.lit "SUMMARY:Submit report";
          Py.lit "END:VEVENT" ])
  /\ to_ics_body default_tzid (Py.lit "20261104T000000Z") 0
       (report_task (PyStr (Py.lit "0999-01-01 00:00"))) []
     = Ok [ Py.lit "BEGIN:VEVENT";
            Py.lit "UID:notice2do-0-9990101T000000@local";
            Py.lit "DTSTAMP:20261104T000000Z";
            Py.lit "DTSTART;TZID=Asia/Seoul:9990101T000000";
            Py.lit "DTEND;TZID=Asia/Seoul:9990101T000000";
            Py.lit "SUMMARY:Submit report";
            Py.lit "END:VEVENT" ].
Proof.
  split.
  - destruct (strict_due_round_trip default_tzid (Py.lit "20261104T000000Z") 3
                (report_task (PyStr (Py.lit " 2024-02-29T23:59 ")))
                (Py.lit " 2024-02-29T23:59 ") calendar_header
                50 48 50 52 48 50 50 57 50 51 53 57
                (TaskItem_report _) eq_refl eq_refl eq_refl) as (H & _).
    exact H.
  - destruct (strict_due_round_trip default_tzid (Py.lit "20261104T000000Z") 0
                (report_task (PyStr (Py.lit "0999-01-01 00:00")))
                (Py.lit "0999-01-01 00:00") []
                48 57 57 57 48 49 48 49 48 48 48 48
                (TaskItem_report _) eq_refl eq_refl eq_refl) as (H & _).
    exact H.
Defined.

Lemma to_ics_body_normalized tzid now_utc i t due due' lines :
  normalized due = normalized due' ->
  to_ics_body tzid now_utc i (<["due_local" := PyStr due]> t) lines
  = to_ics_body tzid now_utc i (<["due_local" := PyStr due']> t) lines.
Proof.
  intros Hn. rewrite !to_ics_body_eq.
  unfold parsed_due, summary_of, dict_get.
  rewrite !lookup_insert_eq, !lookup_insert_ne by done. simpl. by rewrite Hn.
Qed.

(** X9: white space around the deadline, and a T in place of a space
    inside it, change nothing of what a turn of the loop appends. *)
Theorem due_spelling_ignored tzid now_utc i t lines :
  (forall a due b, blank a -> blank b ->
     to_ics_body tzid now_utc i (<["due_local" := PyStr (a ++ due ++ b)]> t) lines
     = to_ics_body tzid now_utc i (<["due_local" := PyStr due]> t) lines)
  /\ (forall c date time e, Py.isspace c = false -> Py.isspace e = false ->
        to_ics_body tzid now_utc i
          (<["due_local" := PyStr (c :: date ++ [84] ++ time ++ [e])]> t) lines
        = to_ics_body tzid now_utc i
            (<["due_local" := PyStr (c :: date ++ [32] ++ time ++ [e])]> t) lines).
Proof.
  split.
  - intros a due b Ha Hb. apply to_ics_body_normalized.
    unfold normalized. by rewrite strip_pad.
  - intros c date time e Hc He. apply to_ics_body_normalized.
    unfold normalized.
    rewrite !(app_assoc date), !(app_assoc (date ++ _)), !strip_id by done.
    unfold Py.replace. rewrite !map_cons, !map_app. reflexivity.
Qed.

Lemma due_spelling_ignored_witness :
  to_ics_body default_tzid [] 0
    (report_task (PyStr (Py.lit "  2025-03-10T09:00" ++ LF))) calendar_header
  = to_ics_body default_tzid [] 0
      (report_task (PyStr (Py.lit "2025-03-10 09:00"))) calendar_header.
Proof.
  destruct (due_spelling_ignored default_tzid [] 0 (report_task PyNone)
              calendar_header) as [Hpad HT].
  etrans; [exact (Hpad (Py.lit "  ") (Py.lit "2025-03-10T09:00") LF
                    ltac:(vm_compute; by repeat constructor)
                    ltac:(vm_compute; by repeat constructor))|].
  exact (HT 50 (Py.lit "025-03-10") (Py.lit "09:0") 48 eq_refl eq_refl).
Defined.

Lemma parsed_due_range t dt :
  parsed_due t = Some dt ->
  1 <= year dt <= 9999 /\ 1 <= month dt <= 12 /\ 1 <= day dt <= 31
  /\ hour dt <= 23 /\ minute dt <= 59 /\ second dt = 0 /\ microsecond dt = 0.
Proof.
  intros H. apply parsed_due_reads_as in H as (due & _ & Hr).
  destruct Hr as (Y & m & d & W & H & M & _ & _ & _ & _ & _ & _ & _
                  & y & mo & da & h & mi & _ & _ & _ & _ & _
                  & Ry & Rmo & Rda & Rh & Rmi & ->).
  pose proof (days_in_month_le y mo). simpl. lia.
Qed.

(** X10: two deadlines that parse have the same start stamp exactly when
    they are the same minute: nothing is lost between [strptime] and
    DTSTART, although the year is written without padding. *)
Theorem start_stamp_determines_deadline t t' dt dt' :
  parsed_due t = Some dt -> parsed_due t' = Some dt' ->
  stamp dt = stamp dt' <-> dt = dt'.
Proof.
  intros H H'. split; [|by intros ->].
  apply parsed_due_range in H, H'.
  destruct dt as [y mo d h mi s us], dt' as [y' mo' d' h' mi' s' us'].
  simpl in H, H'.
  rewrite !stamp_digits by (simpl; lia). simpl.
  intros E. apply app_inj_2 in E as [Ey E]; [|reflexivity].
  apply str_of_N_inj in Ey.
  injection E as ? ? ? ? ? ? ? ? ? ?.
  assert (forall n n', n <= 99 -> n' <= 99 ->
            48 + n / 10 = 48 + n' / 10 -> 48 + n mod 10 = 48 + n' mod 10 ->
            n = n') as two.
  { intros n n' ? ? ? ?.
    pose proof (N.div_mod n 10). pose proof (N.div_mod n' 10). lia. }
  assert (mo = mo') by (apply two; lia).
  assert (d = d') by (apply two; lia).
  assert (h = h') by (apply two; lia).
  assert (mi = mi') by (apply two; lia).
  destruct H as (_ & _ & _ & _ & _ & -> & ->).
  destruct H' as (_ & _ & _ & _ & _ & -> & ->). by subst.
Qed.

Lemma start_stamp_determines_deadline_witness :
  stamp (mkdt 999 1 10 9 0 0 0) <> stamp (mkdt 9990 1 1 9 0 0 0)
  /\ stamp (mkdt 2025 3 10 9 0 0 0) <> stamp (mkdt 2025 3 10 9 1 0 0).
Proof.
  split; intros E.
  - apply (start_stamp_determines_deadline
             (report_task (PyStr (Py.lit "0999-01-10 09:00")))
             (report_task (PyStr (Py.lit "9990-01-01 09:00")))
             (mkdt 999 1 10 9 0 0 0) (mkdt 9990 1 1 9 0 0 0)
             eq_refl eq_refl) in E.
    discriminate E.
  - apply (start_stamp_determines_deadline
             (report_task (PyStr (Py.lit "2025-3-10T9:00")))
             (report_task (PyStr (Py.lit "2025-03-10 09:01")))
             (mkdt 2025 3 10 9 0 0 0) (mkdt 2025 3 10 9 1 0 0)
             eq_refl eq_refl) in E.
    discriminate E.
Defined.

(** *** The client, after the checks *)

Lemma key_accepted_dec api_key : key_accepted api_key \/ ~ key_accepted api_key.
Proof.
  unfold key_accepted. destruct (decide (api_key = [])); [right; tauto|].
  destruct (decide (Forall (fun c => c <= 127) api_key)); [|right; tauto].
  destruct (Py.startswith api_key (Py.lit "sk-")); [left; tauto|right].
  intros (_ & _ & ?). discriminate.
Qed.

Section CallAi.
Context {Net Json : Type}.
Variable responses_create : request -> Net -> result Py.str * Net.
Variable json_loads : Py.str -> result Json.

Lemma call_ai_accepted key raw_text net :
  key_accepted (Py.strip key) ->
  call_ai responses_create json_loads (Ok (PyStr key)) raw_text net
  = ((responses_create (request_for (Py.strip key) raw_text) net).1
       ≫= json_loads,
     (responses_create (request_for (Py.strip key) raw_text) net).2).
Proof.
  intros (Hne & Hascii & Hpre). rewrite call_ai_str.
  rewrite bool_decide_false by done.
  rewrite (proj2 (bad_chars_nil _) Hascii), Hpre. reflexivity.
Qed.

Lemma call_ai_rejected secret raw_text net :
  (forall key, secret = Ok (PyStr key) -> ~ key_accepted (Py.strip key)) ->
  exists e,
    call_ai responses_create json_loads secret raw_text net = (Raise e, net).
Proof.
  intros Hno. destruct secret as [[|key|z]|e]; [by eexists| |..|by eexists].
  - specialize (Hno key eq_refl). rewrite call_ai_str.
    destruct (bool_decide (Py.strip key = [])) eqn:E1; [by eexists|].
    destruct (bool_decide (bad_chars (Py.strip key) = [])) eqn:E2;
      [|by eexists].
    destruct (Py.startswith (Py.strip key) (Py.lit "sk-")) eqn:E3;
      [|by eexists].
    exfalso. apply Hno. apply bool_decide_eq_false in E1.
    apply bool_decide_eq_true in E2. split_and!; [done|by apply bad_chars_nil|done].
  - unfold call_ai, py_or. simpl truthy. destruct (negb _); by eexists.
Qed.
End CallAi.

(** With a client that resends, the log after [call_ai]. *)
Lemma call_ai_log {Json} (answer : request -> result Py.str * nat)
    (json_loads : Py.str -> result Json) secret raw_text sent :
  (exists key, secret = Ok (PyStr key) /\ key_accepted (Py.strip key)
     /\ (call_ai (resending answer) json_loads secret raw_text sent).2
        = sent ++ repeat (request_for (Py.strip key) raw_text)
                    (answer (request_for (Py.strip key) raw_text)).2)
  \/ ((forall key, secret = Ok (PyStr key) -> ~ key_accepted (Py.strip key))
      /\ (call_ai (resending answer) json_loads secret raw_text sent).2 = sent).
Proof.
  assert ((exists key, secret = Ok (PyStr key) /\ key_accepted (Py.strip key))
          \/ (forall key, secret = Ok (PyStr key) -> ~ key_accepted (Py.strip key)))
    as [(key & -> & Hacc)|Hno].
  { destruct secret as [[|key|z]|e]; try (right; intros k [=]; done).
    destruct (key_accepted_dec (Py.strip key)); [left; eauto|].
    right. by intros k [= <-]. }
  - left. exists key. split_and!; [done..|]. by rewrite call_ai_accepted.
  - right. split; [done|].
    by destruct (call_ai_rejected (resending answer) json_loads secret raw_text
                   sent Hno) as (e & ->).
Qed.

(** X11: requests go on the wire only when the secrets hold a [str] whose
    trimmed text is not empty, all ASCII, and starts with sk-.  Then every
    attempt of the client carries the request of lines 76-90 and nothing
    else is added to the log; otherwise the log is as before. *)
Theorem request_iff_checks_pass {Json} (answer : request -> result Py.str * nat)
    (json_loads : Py.str -> result Json) secret raw_text sent :
  let log := (call_ai (resending answer) json_loads secret raw_text sent).2 in
  (forall key, secret = Ok (PyStr key) -> key_accepted (Py.strip key) ->
     log = sent ++ repeat (request_for (Py.strip key) raw_text)
                     (answer (request_for (Py.strip key) raw_text)).2)
  /\ ((forall key, secret = Ok (PyStr key) -> ~ key_accepted (Py.strip key)) ->
      log = sent)
  /\ (forall req, req ∈ log ->
        req ∈ sent
        \/ exists key, secret = Ok (PyStr key) /\ key_accepted (Py.strip key)
                       /\ req = request_for (Py.strip key) raw_text).
Proof.
  intros log. subst log.
  destruct (call_ai_log answer json_loads secret raw_text sent)
    as [(key & -> & Hacc & ->)|(Hno & ->)].
  - split_and!.
    + by intros k [= <-] _.
    + intros H. by destruct (H key eq_refl).
    + intros req [Hin|Hin]%elem_of_app; [by left|].
      right. exists key. split_and!; [done..|].
      apply list_elem_of_In, repeat_spec in Hin. done.
  - split_and!.
    + intros key Hs Hacc. by destruct (Hno key Hs).
    + done.
    + intros req Hin. by left.
Qed.

Lemma request_iff_checks_pass_witness :
  (call_ai failing_backend (fun s => Ok s) (stored (Some (Py.lit " sk-abc ")))
     (Py.lit "notice") [request_for (Py.lit "sk-old") (Py.lit "earlier")]).2
  = [request_for (Py.lit "sk-old") (Py.lit "earlier");
     request_for (Py.lit "sk-abc") (Py.lit "notice");
     request_for (Py.lit "sk-abc") (Py.lit "notice");
     request_for (Py.lit "sk-abc") (Py.lit "notice")]
  /\ (call_ai echo_backend (fun s => Ok s) (stored (Some (Py.lit "abc")))
        (Py.lit "notice") [request_for (Py.lit "sk-old") (Py.lit "earlier")]).2
     = [request_for (Py.lit "sk-old") (Py.lit "earlier")].
Proof.
  split.
  - destruct (request_iff_checks_pass
                (fun _ => (Raise InternalServerError, 3%nat)) (fun s => Ok s)
                (stored (Some (Py.lit " sk-abc "))) (Py.lit "notice")
                [request_for (Py.lit "sk-old") (Py.lit "earlier")]) as (H & _).
    apply (H (Py.lit " sk-abc ") eq_refl).
    split_and!; [discriminate| |reflexivity].
    vm_compute. repeat constructor; discriminate.
  - destruct (request_iff_checks_pass
                (fun r => (Ok (req_user r), 1%nat)) (fun s => Ok s)
                (stored (Some (Py.lit "abc"))) (Py.lit "notice")
                [request_for (Py.lit "sk-old") (Py.lit "earlier")]) as (_ & H & _).
    apply H. intros key [= <-] (_ & _ & Hp). discriminate Hp.
Defined.

(** X12: whenever a request goes out, its key passes the three checks and
    has no white space at either end, the model is gpt-4o-mini, and the user
    message is the raw text as given, between the heading line and a final
    line feed. *)
Theorem sent_key_is_clean {Json} (answer : request -> result Py.str * nat)
    (json_loads : Py.str -> result Json) secret raw_text sent req more :
  (call_ai (resending answer) json_loads secret raw_text sent).2
  = sent ++ req :: more ->
  key_accepted (req_api_key req)
  /\ Py.strip (req_api_key req) = req_api_key req
  /\ (forall c rest, req_api_key req = c :: rest -> Py.isspace c = false)
  /\ (forall c, last (req_api_key req) = Some c -> Py.isspace c = false)
  /\ req_model req = Py.lit "gpt-4o-mini"
  /\ req_user req = Py.lit "[원문]" ++ LF ++ raw_text ++ LF.
Proof.
  intros Hlog.
  destruct (call_ai_log answer json_loads secret raw_text sent)
    as [(key & -> & Hacc & E)|(Hno & E)]; rewrite E in Hlog.
  2:{ exfalso. apply (f_equal length) in Hlog. rewrite length_app in Hlog.
      simpl in Hlog. lia. }
  apply app_inv_head in Hlog.
  destruct (answer _).2 as [|n]; [discriminate|]. injection Hlog as <- _.
  cbn [req_api_key req_model req_user request_for].
  split_and!; [exact Hacc|apply strip_idemp| | |reflexivity..].
  - intros c rest. apply strip_head.
  - intros c. apply strip_last.
Qed.

Lemma sent_key_is_clean_witness :
  key_accepted (Py.lit "sk-abc")
  /\ Py.strip (Py.lit "sk-abc") = Py.lit "sk-abc".
Proof.
  destruct (sent_key_is_clean (fun _ => (Raise InternalServerError, 3%nat))
              (fun s => Ok s)
              (stored (Some (Py.lit "  sk-abc" ++ [160]))) (Py.lit "notice") []
              (request_for (Py.lit "sk-abc") (Py.lit "notice"))
              [request_for (Py.lit "sk-abc") (Py.lit "notice");
               request_for (Py.lit "sk-abc") (Py.lit "notice")] eq_refl)
    as (H1 & H2 & _).
  split; [exact H1|exact H2].
Defined.

(** X14: white space around the credential changes nothing of what
    [call_ai] does.  A secret of white space only is the same as a secrets
    file without the key: both end in the [RuntimeError] about the missing
    key.  Without a secrets file it is the exception of the lookup that
    comes out.  The network is untouched in each case. *)
Theorem credential_padding_ignored {Net Json}
    (responses_create : request -> Net -> result Py.str * Net)
    (json_loads : Py.str -> result Json) a key b raw_text net :
  blank a -> blank b ->
  call_ai responses_create json_loads (Ok (PyStr (a ++ key ++ b))) raw_text net
  = call_ai responses_create json_loads (Ok (PyStr key)) raw_text net
  /\ (key = [] ->
      call_ai responses_create json_loads (Ok (PyStr (a ++ key ++ b))) raw_text net
      = (Raise (RuntimeError msg_missing), net)
      /\ call_ai responses_create json_loads (Ok PyNone) raw_text net
         = (Raise (RuntimeError msg_missing), net))
  /\ (forall e,
        call_ai responses_create json_loads (Raise e) raw_text net
        = (Raise e, net)).
Proof.
  intros Ha Hb.
  assert (call_ai responses_create json_loads (Ok (PyStr (a ++ key ++ b)))
            raw_text net
          = call_ai responses_create json_loads (Ok (PyStr key)) raw_text net) as E.
  { rewrite !call_ai_str. by rewrite strip_pad. }
  split_and!; [exact E| |done].
  intros ->. by rewrite E.
Qed.

Lemma credential_padding_ignored_witness :
  call_ai echo_backend (fun s => Ok s)
    (Ok (PyStr (LF ++ Py.lit "sk-abc" ++ [160; 32]))) (Py.lit "notice") []
  = call_ai echo_backend (fun s => Ok s) (Ok (PyStr (Py.lit "sk-abc")))
      (Py.lit "notice") []
  /\ call_ai echo_backend (fun s => Ok s) (Raise StreamlitSecretNotFoundError)
       (Py.lit "notice") []
     = (Raise StreamlitSecretNotFoundError, []).
Proof.
  destruct (credential_padding_ignored echo_backend (fun s => Ok s) LF
              (Py.lit "sk-abc") [160; 32] (Py.lit "notice") []) as (H1 & _ & H2).
  - vm_compute. by repeat constructor.
  - vm_compute. by repeat constructor.
  - split; [exact H1|apply H2].
Defined.

(** *** The PDF text and the gate of the button *)

Lemma blank_join pages :
  Forall blank pages -> blank (Py.join LF pages).
Proof.
  induction 1 as [|p pages Hp Hps IH]; [constructor|].
  destruct pages as [|q pages]; [exact Hp|].
  change (Py.join LF (p :: q :: pages)) with (p ++ LF ++ Py.join LF (q :: pages)).
  apply Forall_app. split; [exact Hp|]. apply Forall_app. split; [|exact IH].
  by repeat constructor.
Qed.

Lemma too_short_blank s : blank s -> too_short s = true.
Proof.
  intros Hs. unfold too_short. rewrite strip_blank by done.
  apply orb_true_intro. right. reflexivity.
Qed.

Lemma too_short_false s :
  too_short s = false <-> (30 <= length (Py.strip s))%nat.
Proof.
  unfold too_short. split.
  - intros H. apply orb_false_elim in H as [_ H]. apply Nat.ltb_ge in H. exact H.
  - intros H. apply orb_false_intro; [|by apply Nat.ltb_ge].
    apply bool_decide_eq_false. intros ->. simpl in H. lia.
Qed.

(** X15: the text that [extract_text_from_pdf] returns neither starts nor
    ends with white space, so trimming it again changes nothing: for a PDF
    the button tests the length of the text itself. *)
Theorem pdf_text_is_trimmed {Upload} (HAS_PDF : bool)
    (page_texts : Upload -> result (list Py.str)) uploaded_file text :
  extract_text_from_pdf HAS_PDF page_texts uploaded_file = Ok text ->
  Py.strip text = text
  /\ (forall c rest, text = c :: rest -> Py.isspace c = false)
  /\ (forall c, last text = Some c -> Py.isspace c = false)
  /\ too_short text = (length text <? 30)%nat.
Proof.
  unfold extract_text_from_pdf. intros H.
  assert (exists s, text = Py.strip s) as [s ->].
  { destruct HAS_PDF; simpl in H; [|injection H as <-; by exists []].
    destruct (page_texts uploaded_file) as [pages|e]; simpl in H; [|discriminate].
    injection H as <-. by eexists. }
  split_and!.
  - apply strip_idemp.
  - intros c rest E. by apply strip_head with s rest.
  - intros c E. by apply strip_last with s.
  - unfold too_short. rewrite strip_idemp.
    destruct (Py.strip s); [reflexivity|].
    by rewrite bool_decide_false.
Qed.

Lemma pdf_text_is_trimmed_witness :
  Py.strip (Py.lit "Quiz on Monday") = Py.lit "Quiz on Monday"
  /\ too_short (Py.lit "Quiz on Monday") = true.
Proof.
  destruct (pdf_text_is_trimmed true (one_page (Py.lit " Quiz on Monday" ++ LF)) tt
              (Py.lit "Quiz on Monday") eq_refl) as (H1 & _ & _ & H2).
  split; [exact H1|]. rewrite H2. reflexivity.
Defined.

(** X16: in PDF mode, without PyMuPDF, without an uploaded file, or with a
    file whose pages hold white space only, a click ends at the warning:
    nothing is sent, whatever the credential. *)
Theorem unreadable_pdf_stops {Upload Net Json} (HAS_PDF : bool)
    (page_texts : Upload -> result (list Py.str))
    (responses_create : request -> Net -> result Py.str * Net)
    (json_loads : Py.str -> result Json) uploaded secret sent :
  HAS_PDF = false \/ uploaded = None
  \/ (exists f pages, uploaded = Some f /\ page_texts f = Ok pages
                      /\ Forall blank pages) ->
  on_click HAS_PDF page_texts responses_create json_loads (Upload_pdf uploaded)
    secret sent
  = (Ok None, sent).
Proof.
  unfold on_click, read_input, extract_text_from_pdf.
  intros [->|[->|(f & pages & -> & Hp & Hb)]].
  - by destruct uploaded.
  - reflexivity.
  - destruct HAS_PDF; [|reflexivity]. simpl. rewrite Hp. simpl.
    rewrite too_short_blank; [reflexivity|].
    rewrite strip_blank by by apply blank_join. constructor.
Qed.

Lemma unreadable_pdf_stops_witness :
  on_click true (fun _ : unit => Ok [Py.lit "  "; LF; []]) echo_backend
    (fun s => Ok s) (Upload_pdf (Some tt)) (stored (Some (Py.lit "sk-abc"))) []
  = (Ok None, []).
Proof.
  apply (unreadable_pdf_stops true (fun _ : unit => Ok [Py.lit "  "; LF; []])
           echo_backend (fun s => Ok s) (Some tt)
           (stored (Some (Py.lit "sk-abc"))) []).
  right. right. exists tt, [Py.lit "  "; LF; []].
  split_and!; [reflexivity..|]. vm_compute. by repeat constructor.
Defined.

(** X17: a click changes the log of requests only if the input, trimmed,
    has at least 30 characters and the secrets hold a [str] that passes the
    checks of [call_ai]; what is added then is the request of lines 76-90
    with the input untrimmed, once for each attempt of the client. *)
Theorem click_sends_only_checked_input {Upload Json} (HAS_PDF : bool)
    (page_texts : Upload -> result (list Py.str))
    (answer : request -> result Py.str * nat)
    (json_loads : Py.str -> result Json) mode secret sent :
  (on_click HAS_PDF page_texts (resending answer) json_loads mode secret sent).2
  <> sent ->
  exists raw_text key,
    read_input HAS_PDF page_texts mode = Ok raw_text
    /\ (30 <= length (Py.strip raw_text))%nat
    /\ secret = Ok (PyStr key)
    /\ key_accepted (Py.strip key)
    /\ (on_click HAS_PDF page_texts (resending answer) json_loads mode secret
          sent).2
       = sent ++ repeat (request_for (Py.strip key) raw_text)
                   (answer (request_for (Py.strip key) raw_text)).2.
Proof.
  unfold on_click.
  destruct (read_input HAS_PDF page_texts mode) as [raw_text|e]; [|done].
  destruct (too_short raw_text) eqn:Hshort; [done|].
  destruct (call_ai (resending answer) json_loads secret raw_text sent)
    as [data sent'] eqn:Hcall.
  cbn [snd]. intros Hne. exists raw_text.
  destruct (call_ai_log answer json_loads secret raw_text sent)
    as [(key & Hs & Hacc & E)|(_ & E)];
    rewrite Hcall in E; cbn [snd] in E; [|done].
  exists key. split_and!; [done|by apply too_short_false|done..].
Qed.

Lemma click_sends_only_checked_input_witness :
  exists raw_text key,
    read_input (Upload := unit) true (fun _ => Ok []) (Paste long_notice) = Ok raw_text
    /\ (30 <= length (Py.strip raw_text))%nat
    /\ stored (Some (Py.lit "sk-abc")) = Ok (PyStr key)
    /\ key_accepted (Py.strip key)
    /\ (on_click (Upload := unit) true (fun _ => Ok [])
          (resending (fun _ => (Raise InternalServerError, 3%nat))) (fun s => Ok s)
          (Paste long_notice) (stored (Some (Py.lit "sk-abc"))) []).2
       = [] ++ repeat (request_for (Py.strip key) raw_text)
                 ((fun _ : request => (Raise InternalServerError : result Py.str, 3%nat))
                    (request_for (Py.strip key) raw_text)).2.
Proof.
  refine (click_sends_only_checked_input (Upload := unit) true
            (fun _ => Ok []) (fun _ => (Raise InternalServerError, 3%nat))
            (fun s => Ok s) (Paste long_notice) (stored (Some (Py.lit "sk-abc"))) [] _).
  vm_compute. intros E; inversion E.
Defined.

(** *** The label of a task *)

Lemma task_label_Got t p k d :
  t !! "priority" = Some p -> t !! "task" = Some k -> t !! "due_local" = Some d ->
  task_label t = Got (label_of p k d).
Proof.
  intros Hp Hk Hd. unfold task_label, getitem, label_of.
  rewrite Hp, Hk, Hd. cbn [mbind keyed_bind].
  destruct (truthy d).
  - cbn [mbind keyed_bind]. f_equal. by rewrite <- !app_assoc.
  - by rewrite app_nil_r.
Qed.

(** X18: the label of a task exists exactly when "priority", "task" and
    "due_local" are keys of the task; the [KeyError] names the first one
    missing, in that order.  [to_ics] reads with [get]: a task without "task"
    and "due_local" is skipped there. *)
Theorem label_needs_three_keys t :
  ((exists label, task_label t = Got label)
   <-> is_Some (t !! "priority") /\ is_Some (t !! "task")
       /\ is_Some (t !! "due_local"))
  /\ (t !! "priority" = None -> task_label t = KeyError "priority")
  /\ (is_Some (t !! "priority") -> t !! "task" = None ->
      task_label t = KeyError "task")
  /\ (is_Some (t !! "priority") -> is_Some (t !! "task") ->
      t !! "due_local" = None -> task_label t = KeyError "due_local")
  /\ forall tzid now_utc i lines,
       t !! "task" = None -> t !! "due_local" = None ->
       to_ics_body tzid now_utc i t lines = Ok lines.
Proof.
  split_and!.
  - split.
    + intros (label & H). unfold task_label, getitem in H.
      destruct (t !! "priority"); [|discriminate].
      destruct (t !! "task"); [|discriminate].
      destruct (t !! "due_local"); [|discriminate]. by split_and!.
    + intros ([p Hp] & [k Hk] & [d Hd]). eexists. by apply task_label_Got.
  - intros Hp. unfold task_label, getitem. by rewrite Hp.
  - intros [p Hp] Hk. unfold task_label, getitem. by rewrite Hp, Hk.
  - intros [p Hp] [k Hk] Hd. unfold task_label, getitem. by rewrite Hp, Hk, Hd.
  - intros tzid now_utc i lines Hk Hd. apply parsed_due_None_skip.
    + unfold parsed_due, dict_get. by rewrite Hd.
    + left. unfold dict_get. by rewrite Hd.
Qed.

Lemma label_needs_three_keys_witness :
  task_label (report_task (PyStr (Py.lit "2025-03-10 09:00"))) = KeyError "priority"
  /\ to_ics_body default_tzid [] 0 (∅ : gmap string pyval) [] = Ok [].
Proof.
  split.
  - destruct (label_needs_three_keys (report_task (PyStr (Py.lit "2025-03-10 09:00"))))
      as (_ & H & _).
    apply H. reflexivity.
  - destruct (label_needs_three_keys (∅ : gmap string pyval)) as (_ & _ & _ & _ & H).
    apply H; reflexivity.
Defined.

Lemma reads_as_nonempty s dt : reads_as s dt -> s <> [].
Proof.
  intros (Y & m & d & W & H & M & -> & _). intros E.
  apply (f_equal length) in E. rewrite !length_app in E. simpl in E. lia.
Qed.

Lemma parsed_due_truthy t dt :
  parsed_due t = Some dt ->
  exists due, t !! "due_local" = Some (PyStr due) /\ truthy (PyStr due) = true
              /\ reads_as (normalized due) dt.
Proof.
  intros H. apply parsed_due_reads_as in H as (due & Hd & Hr).
  exists due. split_and!; [|  |exact Hr].
  - unfold dict_get in Hd. destruct (t !! "due_local") as [v|]; [|discriminate].
    simpl in Hd. by subst.
  - simpl. apply reads_as_nonempty in Hr.
    rewrite bool_decide_false; [done|]. by intros ->.
Qed.

(** X19: every task that gets an event in the calendar shows its deadline
    on its label, as the record has it (not normalized). *)
Theorem event_deadline_is_on_label t dt p k :
  parsed_due t = Some dt ->
  t !! "priority" = Some p -> t !! "task" = Some k ->
  exists due,
    t !! "due_local" = Some (PyStr due)
    /\ task_label t
       = Got (Py.lit "[" ++ format p ++ Py.lit "] " ++ format k
              ++ Py.lit " (마감: " ++ due ++ Py.lit ")").
Proof.
  intros Hdt Hp Hk. apply parsed_due_truthy in Hdt as (due & Hd & Ht & _).
  exists due. split; [exact Hd|].
  rewrite (task_label_Got t p k (PyStr due)) by done.
  unfold label_of. by rewrite Ht.
Qed.

Lemma event_deadline_is_on_label_witness :
  exists due,
    quiz_task !! "due_local" = Some (PyStr due)
    /\ task_label quiz_task
       = Got (Py.lit "[" ++ format (PyStr (Py.lit "high")) ++ Py.lit "] "
              ++ format (PyStr (Py.lit "Quiz"))
              ++ Py.lit " (마감: " ++ due ++ Py.lit ")").
Proof.
  refine (event_deadline_is_on_label quiz_task (mkdt 2025 3 10 9 0 0 0)
            (PyStr (Py.lit "high")) (PyStr (Py.lit "Quiz")) _ _ _);
    vm_compute; reflexivity.
Defined.

(** *** Tasks that conform to [SCHEMA] *)

Lemma schema_task_TaskItem t : schema_task t -> TaskItem t.
Proof.
  intros (_ & (s & Hs) & Hd & _). unfold TaskItem, dict_get. rewrite Hs. split.
  - right. by eexists.
  - destruct Hd as [->|(d & ->)]; [by left|right; by eexists].
Qed.

(** X20: on tasks that conform to the item schema of [SCHEMA], [to_ics]
    returns a document and every label is built: the priority of the task
    in brackets, its description, and its deadline in parentheses exactly
    when the deadline is a [str] that is not empty. *)
Theorem schema_tasks_render {World} (clk : World -> datetime * World)
    tasks tzid w :
  Forall schema_task tasks ->
  (exists doc, (to_ics clk tasks tzid w).1 = Ok doc)
  /\ Forall (fun t => exists p k d,
               t !! "priority" = Some (PyStr p)
               /\ p ∈ [Py.lit "high"; Py.lit "mid"; Py.lit "low"]
               /\ t !! "task" = Some (PyStr k)
               /\ t !! "due_local" = Some d
               /\ task_label t
                  = Got (Py.lit "[" ++ p ++ Py.lit "] " ++ k
                         ++ match d with
                            | PyStr (c :: due) =>
                              Py.lit " (마감: " ++ c :: due ++ Py.lit ")"
                            | _ => []
                            end))
       tasks.
Proof.
  intros Hall. split.
  - unfold to_ics. destruct (clk w) as [now w']. cbn [fst].
    rewrite to_ics_loop_TaskItems; [by eexists|].
    eapply Forall_impl; [exact Hall|]. apply schema_task_TaskItem.
  - eapply Forall_impl; [exact Hall|].
    intros t (_ & (k & Hk) & Hd & (p & Hp & Hin) & _).
    assert (exists d, t !! "due_local" = Some d
                      /\ (d = PyNone \/ exists s, d = PyStr s)) as (d & Hd' & Hshape).
    { destruct Hd as [Hd|(s & Hd)]; eexists; (split; [exact Hd|]); eauto. }
    exists p, k, d. split_and!; [done..|].
    rewrite (task_label_Got t _ _ _ Hp Hk Hd'). unfold label_of.
    by destruct Hshape as [->|([|c s] & ->)].
Qed.

Lemma schema_tasks_render_witness :
  task_label quiz_task = Got (Py.lit "[high] Quiz (마감:  2025-03-10T09:00)")
  /\ task_label undated_quiz_task = Got (Py.lit "[low] Quiz").
Proof.
  assert (Forall schema_task [quiz_task; undated_quiz_task]) as Hall.
  { repeat (apply Forall_cons_2; [|]); [| |apply Forall_nil_2].
    - split_and!; [vm_compute; reflexivity|by eexists|right; by eexists| |by eexists].
      eexists. split; [reflexivity|]. vm_compute. left.
    - split_and!; [vm_compute; reflexivity|by eexists|by left| |by eexists].
      eexists. split; [reflexivity|]. vm_compute. do 2 right. left. }
  destruct (schema_tasks_render fixed_clock [quiz_task; undated_quiz_task]
              default_tzid tt Hall) as (_ & H).
  apply Forall_cons in H as [(p & k & d & Hp & _ & Hk & Hd & Hl) H].
  apply Forall_cons in H as [(p' & k' & d' & Hp' & _ & Hk' & Hd' & Hl') _].
  vm_compute in Hp, Hk, Hd, Hp', Hk', Hd'.
  injection Hp as <-. injection Hk as <-. injection Hd as <-.
  injection Hp' as <-. injection Hk' as <-. injection Hd' as <-.
  split; [rewrite Hl|rewrite Hl']; vm_compute; reflexivity.
Defined.
